(** * size_diff: line-count statistics and snapshot diffs

    A shallow embedding of [src/size_diff.py] and the properties of its
    statistics collector ([gen_stats]), diff engine ([gen_diff]) and
    reporter ([main]).

    Conventions of the embedding:
    - Python [int] is [Z]; Python [float] is IEEE binary64, taken from the
      executable specification [SpecFloat] (precision 53, emax 1024);
    - Python [str] is [string], one [ascii] per character (code points
      below 256); comparison of strings is by character code, as in Python;
    - a [dict] keyed by path is a [gmap string _], a [set] is a [gset];
    - an exception is a value of [exn] carried by [result];
    - what [main] prints is the list of its [print] calls, in order. *)

From Stdlib Require Import ZArith String Ascii List Floats.SpecFloat.
From stdpp Require Import gmap strings list sorting pretty.

#[local] Set Warnings "-clear-no-such-hyp".

Local Open Scope string_scope.
Local Open Scope list_scope.
Local Open Scope Z_scope.

(** ** Python floats (binary64) *)

Module Float.
Definition float : Type := spec_float.
Definition prec : Z := 53.
Definition emax : Z := 1024.

(** The literal [0.0]. *)
Definition zero : float := S754_zero false.

Definition sub : float -> float -> float := SFsub prec emax.
Definition div : float -> float -> float := SFdiv prec emax.
Definition opp : float -> float := SFopp.
(** [x == y] and [x < y] on floats; both are [False] on a NaN. *)
Definition eqb : float -> float -> bool := SFeqb.
Definition ltb : float -> float -> bool := SFltb.

(** A real number: neither an infinity nor a NaN. *)
Definition is_finite (x : float) : bool :=
  match x with
  | S754_zero _ | S754_finite _ _ _ => true
  | S754_infinity _ | S754_nan => false
  end.

Definition is_nan (x : float) : bool :=
  match x with S754_nan => true | _ => false end.

(** An integer as the unrounded pair mantissa, exponent 0. *)
Definition of_int_exact (n : Z) : float :=
  match n with
  | Z0 => S754_zero false
  | Zpos p => S754_finite false p 0
  | Zneg p => S754_finite true p 0
  end.
End Float.

Abbreviation float := Float.float.

(** ** Exceptions and results *)

Inductive exn : Type :=
  | ZeroDivisionError
  | OverflowError
  (** whatever [tokenize.open] or [tokenize.generate_tokens] raises *)
  | TokenizeError
  (** [int()] on text that is not an integer literal *)
  | ValueError
  | AssertionError (msg : string).

Inductive result (A : Type) : Type :=
  | Ok (a : A)
  | Raise (e : exn).
Arguments Ok {A} a.
Arguments Raise {A} e.

Definition bind {A B : Type} (r : result A) (k : A -> result B) : result B :=
  match r with
  | Ok a => k a
  | Raise e => Raise e
  end.

Notation "x <-- r ;; k" := (bind r (fun x => k))
  (at level 100, r at next level, right associativity).

(** [a / b] on Python ints: the quotient rounded once to binary64;
    division by zero and a quotient too large for a float raise. *)
Definition int_truediv (a b : Z) : result float :=
  if b =? 0 then Raise ZeroDivisionError
  else
    let q := Float.div (Float.of_int_exact a) (Float.of_int_exact b) in
    if Float.is_finite q then Ok q else Raise OverflowError.

(** ** Python built-ins used by the tool *)

Definition sum_Z (l : list Z) : Z := foldl Z.add 0 l.

(** [range(a, b)]. *)
Definition range (a b : Z) : list Z := seqZ a (b - a).

(** [sorted]: a stable sort that compares with [<] only.  [insert_sorted x l]
    puts [x], which stood before every element of [l], in front of the first
    [y] that is not below it.  On elements that [<] orders totally, every
    stable sort returns this list. *)
Fixpoint insert_sorted {A : Type} (lt : A -> A -> bool) (x : A) (l : list A) : list A :=
  match l with
  | [] => [x]
  | y :: l' => if lt y x then y :: insert_sorted lt x l' else x :: l
  end.

Definition py_sorted {A : Type} (lt : A -> A -> bool) (l : list A) : list A :=
  foldr (insert_sorted lt) [] l.

(** [sorted(l, key=key, reverse=True)] with integer keys: descending, and
    rows of equal key keep their order. *)
Definition sorted_by_key_desc {A : Type} (key : A -> Z) (l : list A) : list A :=
  py_sorted (fun a b => key b <? key a) l.

(** [str.isspace] on one character. *)
Definition py_isspace (c : ascii) : bool :=
  let n := Z.of_N (N_of_ascii c) in
  ((9 <=? n) && (n <=? 13)) || ((28 <=? n) && (n <=? 32)) || (n =? 133) || (n =? 160).

Fixpoint lstrip (s : string) : string :=
  match s with
  | EmptyString => EmptyString
  | String c s' => if py_isspace c then lstrip s' else s
  end.

Definition rstrip (s : string) : string := String.rev (lstrip (String.rev s)).

(** [s.strip()]. *)
Definition strip (s : string) : string := rstrip (lstrip s).

(** [s.startswith(p)]. *)
Definition startswith (s p : string) : bool := String.prefix p s.

(** [s.split(sep)] for a one-character separator. *)
Fixpoint split (sep : ascii) (s : string) : list string :=
  match s with
  | EmptyString => [EmptyString]
  | String c s' =>
      if Ascii.eqb c sep then EmptyString :: split sep s'
      else match split sep s' with
           | w :: ws => String c w :: ws
           | [] => [String c EmptyString]
           end
  end.

(** [sep.join(l)]. *)
Fixpoint join (sep : string) (l : list string) : string :=
  match l with
  | [] => EmptyString
  | [w] => w
  | w :: ws => w +:+ sep +:+ join sep ws
  end.

(** [l[:n]]. *)
Definition slice_to {A : Type} (n : nat) (l : list A) : list A := take n l.

(** [str(n)] for an int. *)
Definition str_int (n : Z) : string := pretty n.

Definition spaces (n : nat) : string := string_of_list_ascii (replicate n " "%char).

(** [f"{s:30s}"]-style padding: left-justified in [w] columns. *)
Definition ljust (w : nat) (s : string) : string :=
  s +:+ spaces (w - String.length s).

(** [f"{n:6d}"]-style padding: right-justified in [w] columns. *)
Definition rjust (w : nat) (s : string) : string :=
  spaces (w - String.length s) +:+ s.

Definition digit_of (c : ascii) : option Z :=
  let n := Z.of_N (N_of_ascii c) in
  if (48 <=? n) && (n <=? 57) then Some (n - 48) else None.

(** Decimal digits, single underscores allowed between two digits. *)
Fixpoint parse_digits (acc : Z) (after_digit : bool) (s : string) : option Z :=
  match s with
  | EmptyString => if after_digit then Some acc else None
  | String c s' =>
      match digit_of c with
      | Some d => parse_digits (10 * acc + d) true s'
      | None =>
          if Ascii.eqb c "_"%char && after_digit then parse_digits acc false s'
          else None
      end
  end.

(** The characters [int()] skips before and after a number: those of C's
    [isspace] among the ASCII ones (so not the separators 28 to 31, which
    [str.strip] removes), and the whitespace beyond ASCII. *)
Definition int_isspace (c : ascii) : bool :=
  let n := Z.of_N (N_of_ascii c) in
  ((9 <=? n) && (n <=? 13)) || (n =? 32) || (n =? 133) || (n =? 160).

Fixpoint int_lstrip (s : string) : string :=
  match s with
  | EmptyString => EmptyString
  | String c s' => if int_isspace c then int_lstrip s' else s
  end.

Definition int_strip (s : string) : string :=
  String.rev (int_lstrip (String.rev (int_lstrip s))).

(** [sys.int_info.default_max_str_digits]: the longest run of digits
    [int()] converts. *)
Definition int_max_str_digits : Z := 4300.

(** The digits of a literal; underscores and the sign do not count. *)
Fixpoint count_digits (s : string) : Z :=
  match s with
  | EmptyString => 0
  | String c s' =>
      match digit_of c with
      | Some _ => 1 + count_digits s'
      | None => count_digits s'
      end
  end.

(** The digits after the sign: refused when there are more than the limit. *)
Definition parse_literal (r : string) : option Z :=
  if int_max_str_digits <? count_digits r then None
  else parse_digits 0 false r.

(** [int(s)] in base 10: surrounding whitespace, an optional sign, digits. *)
Definition py_int (s : string) : result Z :=
  let parsed :=
    match int_strip s with
    | String "-"%char r => Z.opp <$> parse_literal r
    | String "+"%char r => parse_literal r
    | r => parse_literal r
    end in
  match parsed with
  | Some n => Ok n
  | None => Raise ValueError
  end.

(** [itertools.groupby(l, key)]: maximal runs of consecutive equal keys. *)
Fixpoint groupby {A : Type} (key : A -> string) (l : list A) : list (string * list A) :=
  match l with
  | [] => []
  | x :: l' =>
      match groupby key l' with
      | (k, g) :: gs =>
          if String.eqb (key x) k then (k, x :: g) :: gs
          else (key x, [x]) :: (k, g) :: gs
      | [] => [(key x, [x])]
      end
  end.

(** ** Tokens *)

(** The token types of the [token] module; [OtherToken] stands for the
    types the tool never names. *)
Inductive token_type : Type :=
  | ENDMARKER | NAME | NUMBER | STRING | NEWLINE | INDENT | DEDENT
  | OP | COMMENT | NL | OtherToken (code : Z).

(** [tokenize.TokenInfo]: positions are (row, column) pairs. *)
Record TokenInfo : Type := {
  tok_type : token_type;
  tok_string : string;
  tok_start : Z * Z;
  tok_end : Z * Z;
  tok_line : string
}.

(** [tok.type in TOKEN_WHITELIST]. *)
Definition in_TOKEN_WHITELIST (t : token_type) : bool :=
  match t with
  | OP | NAME | NUMBER | STRING => true
  | _ => false
  end.

Definition is_STRING (t : token_type) : bool :=
  match t with STRING => true | _ => false end.

Definition dquote : ascii := "034"%char.
Definition squote : ascii := "039"%char.
Definition triple (q : ascii) : string := String q (String q (String q EmptyString)).

Definition is_docstring (tok : TokenInfo) : bool :=
  is_STRING (tok_type tok)
  && startswith (tok_string tok) (triple dquote)
  && startswith (strip (tok_line tok)) (triple dquote).

(** ** Per-file statistics *)

(** A stat row [[relpath, line_count, density]]. *)
Record FileStat : Type := {
  path : string;
  line_count : Z;
  density : float
}.

(** One file met by [base_path.rglob("*.py")]: its path relative to the
    base, in posix form, and what tokenizing it gives. *)
Record source_file : Type := {
  relpath : string;
  tokenized : result (list TokenInfo)
}.

(** A directory tree, as the sequence of files [rglob] yields. *)
Definition directory : Type := list source_file.

Definition retained (toks : list TokenInfo) : list TokenInfo :=
  List.filter (fun tok => in_TOKEN_WHITELIST (tok_type tok) && negb (is_docstring tok)) toks.

Definition token_lines (tok : TokenInfo) : list Z :=
  range (fst (tok_start tok)) (fst (tok_end tok) + 1).

Definition covered_lines (tokens : list TokenInfo) : gset Z :=
  list_to_set (tokens ≫= token_lines).

(** The body of the loop over files. *)
Definition gen_stats_file (stats : list FileStat) (f : source_file) : result (list FileStat) :=
  toks <-- tokenized f ;;
  let tokens := retained toks in
  let token_count := Z.of_nat (length tokens) in
  let line_count := Z.of_nat (size (covered_lines tokens)) in
  if 0 <? line_count then
    density <-- int_truediv token_count line_count ;;
    Ok (stats ++ [{| path := relpath f; line_count := line_count; density := density |}])
  else Ok stats.

Fixpoint gen_stats_from (stats : list FileStat) (files : directory) : result (list FileStat) :=
  match files with
  | [] => Ok stats
  | f :: files' =>
      stats' <-- gen_stats_file stats f ;;
      gen_stats_from stats' files'
  end.

Definition gen_stats (base : directory) : result (list FileStat) :=
  gen_stats_from [] base.

(** ** Diff engine *)

(** A diff row [[fname, new_line_count, line_delta, new_density, density_delta]]. *)
Record DiffRow : Type := {
  d_path : string;
  new_line_count : Z;
  line_delta : Z;
  new_density : float;
  density_delta : float
}.

(** [{row[0]: row for row in stats}]: a later row replaces an earlier one. *)
Definition stats_map (stats : list FileStat) : gmap string FileStat :=
  foldl (fun m row => <[path row := row]> m) ∅ stats.

(** The row a missing side defaults to: [[fname, 0, 0.0]]. *)
Definition default_row (fname : string) : FileStat :=
  {| path := fname; line_count := 0; density := Float.zero |}.

(** The body of the loop over file names. *)
Definition gen_diff_step (old_map new_map : gmap string FileStat)
    (diff_table : list DiffRow) (fname : string) : list DiffRow :=
  let old_row := default (default_row fname) (old_map !! fname) in
  let new_row := default (default_row fname) (new_map !! fname) in
  let line_delta := line_count new_row - line_count old_row in
  let density_delta := Float.sub (density new_row) (density old_row) in
  if negb (line_delta =? 0) || negb (Float.eqb density_delta Float.zero) then
    diff_table ++ [{| d_path := fname;
                      new_line_count := line_count new_row;
                      line_delta := line_delta;
                      new_density := density new_row;
                      density_delta := density_delta |}]
  else diff_table.

Definition gen_diff (old_stats new_stats : list FileStat) : list DiffRow :=
  let old_map := stats_map old_stats in
  let new_map := stats_map new_stats in
  let all_files : gset string := dom old_map ∪ dom new_map in
  foldl (gen_diff_step old_map new_map) [] (py_sorted String.ltb (elements all_files)).

Definition display_diff (diff : Z) : string :=
  if 0 <? diff then "+" +:+ str_int diff else str_int diff.

(** ** Reporter *)

(** One [print] call of [main].  The two tables stand for the text
    [tabulate] renders from the header row and the sorted rows. *)
Inductive printed : Type :=
  | Line (s : string)
  | StatTable (headers : list string) (rows : list FileStat)
  | DiffTable (headers : list string) (rows : list DiffRow).

Definition newline : string := String "010"%char EmptyString.

(** [("/".join(r[0].split("/")[:2]), r[1], r[2])]. *)
Definition group_key (p : string) : string :=
  join "/" (slice_to 2 (split "/"%char p)).

Definition group_item : Type := string * Z * float.

Definition item_key (it : group_item) : string := fst (fst it).
Definition item_lines (it : group_item) : Z := snd (fst it).

Definition group_item_of (r : FileStat) : group_item :=
  (group_key (path r), line_count r, density r).

(** [a < b] on the tuples [(str, int, float)]: the first component that
    differs decides. *)
Definition group_item_lt (a b : group_item) : bool :=
  let '(ka, na, da) := a in
  let '(kb, nb, db) := b in
  if negb (String.eqb ka kb) then String.ltb ka kb
  else if negb (na =? nb) then na <? nb
  else Float.ltb da db.

(** The directory-level summary: the groups, in the order printed, each
    with its name and its items. *)
Definition dir_groups (table_sorted : list FileStat) : list (string * list group_item) :=
  groupby item_key (py_sorted group_item_lt (map group_item_of table_sorted)).

Definition group_total (group : list group_item) : Z :=
  sum_Z (map item_lines group).

Definition group_line (g : string * list group_item) : printed :=
  Line (ljust 30 (fst g) +:+ " : " +:+ rjust 6 (str_int (group_total (snd g)))).

Definition stat_headers : list string := ["File"; "Lines"; "Tokens/Line"].
Definition diff_headers : list string :=
  ["File"; "Lines"; "Diff"; "Tokens/Line"; "Token Density Diff"].

Definition no_changes : printed :=
  Line "#### No changes found in core library line counts.".

(** The threshold check at the end of single-snapshot mode. *)
Definition check_max_count (getenv_MAX_LINE_COUNT : option string) (total_lines : Z) : result unit :=
  max_count <-- py_int (default "-1" getenv_MAX_LINE_COUNT) ;;
  if (max_count =? -1) || (total_lines <=? max_count) then Ok tt
  else Raise (AssertionError ("OVER " +:+ str_int max_count +:+ " LINES")).

Definition report_diff (table : list DiffRow) : list printed * result unit :=
  match table with
  | [] => ([no_changes], Ok tt)
  | _ =>
      let table_sorted := sorted_by_key_desc new_line_count table in
      let total_delta := sum_Z (map line_delta table) in
      ([Line "### Changes:"; Line "```";
        DiffTable diff_headers table_sorted;
        Line (newline +:+ "total lines changed: " +:+ display_diff total_delta);
        Line "```"], Ok tt)
  end.

Definition report_stats (getenv_MAX_LINE_COUNT : option string) (table : list FileStat)
    : list printed * result unit :=
  match table with
  | [] => ([no_changes], Ok tt)
  | _ =>
      let table_sorted := sorted_by_key_desc line_count table in
      let total_lines := sum_Z (map line_count table) in
      ([StatTable stat_headers table_sorted]
         ++ map group_line (dir_groups table_sorted)
         ++ [Line (newline +:+ "total line count: " +:+ str_int total_lines)],
       check_max_count getenv_MAX_LINE_COUNT total_lines)
  end.

(** [Path(args[0]) if args else Path(".")]. *)
Definition base_arg (args : list string) : string :=
  match args with
  | a :: _ => a
  | [] => "."
  end.

(** [main]: [args] is [sys.argv[1:]], [fs] maps a path argument to the tree
    below it, [getenv_MAX_LINE_COUNT] is the environment variable, [None]
    when it is not set.  The result is what was printed and how the run
    ended. *)
Definition main (args : list string) (fs : string -> directory)
    (getenv_MAX_LINE_COUNT : option string) : list printed * result unit :=
  match args with
  | [old_dir; new_dir] =>
      match gen_stats (fs old_dir) with
      | Raise e => ([], Raise e)
      | Ok old_stats =>
          match gen_stats (fs new_dir) with
          | Raise e => ([], Raise e)
          | Ok new_stats => report_diff (gen_diff old_stats new_stats)
          end
      end
  | _ =>
      let base := base_arg args in
      match gen_stats (fs base) with
      | Raise e => ([], Raise e)
      | Ok table => report_stats getenv_MAX_LINE_COUNT table
      end
  end.

(** ** Auxiliary definitions for the statements *)

(** The row, if any, that one turn of the loop of [gen_diff] appends. *)
Definition diff_row (old_map new_map : gmap string FileStat) (fname : string) : option DiffRow :=
  match gen_diff_step old_map new_map [] fname with
  | row :: _ => Some row
  | [] => None
  end.

(** [line_delta != 0 or density_delta != 0] for an old and a new row. *)
Definition changed (old_row new_row : FileStat) : bool :=
  negb (line_count new_row - line_count old_row =? 0)
  || negb (Float.eqb (Float.sub (density new_row) (density old_row)) Float.zero).

(** The diff row of a file name, from its old and its new row. *)
Definition delta_row (fname : string) (old_row new_row : FileStat) : DiffRow :=
  {| d_path := fname;
     new_line_count := line_count new_row;
     line_delta := line_count new_row - line_count old_row;
     new_density := density new_row;
     density_delta := Float.sub (density new_row) (density old_row) |}.

(** The file names [gen_diff] loops over, in order. *)
Definition diff_keys (old_stats new_stats : list FileStat) : list string :=
  py_sorted String.ltb (elements (dom (stats_map old_stats) ∪ dom (stats_map new_stats))).

(** The row of a collection for a path, the default row when the path is
    missing: a lookup in the list itself, not in the dictionary. *)
Definition stat_of (stats : list FileStat) (p : string) : FileStat :=
  default (default_row p) (List.find (fun r => String.eqb (path r) p) stats).

Definition paths (stats : list FileStat) : list string := map path stats.

(** A file for which [gen_stats] finds [line_count > 0]. *)
Definition has_lines (f : source_file) : bool :=
  match tokenized f with
  | Ok toks => 0 <? Z.of_nat (size (covered_lines (retained toks)))
  | Raise _ => false
  end.

(** Python's two triple-quote delimiters. *)
Definition triple_quote_delimiters : list string := [triple dquote; triple squote].

Definition total_lines (stats : list FileStat) : Z := sum_Z (map line_count stats).

(** ** Example snapshots *)

(** A one-character name at line [row], column [col]. *)
Definition name_tok (row col : Z) : TokenInfo :=
  {| tok_type := NAME; tok_string := "x";
     tok_start := (row, col); tok_end := (row, col + 1); tok_line := "x x x" |}.

(** The tokens of [n] lines of [k] names each. *)
Definition name_lines (n k : Z) : list TokenInfo :=
  seqZ 1 n ≫= fun row => (fun i => name_tok row (2 * i)) <$> seqZ 0 k.

Definition py_file (p : string) (toks : list TokenInfo) : source_file :=
  {| relpath := p; tokenized := Ok toks |}.

Definition doc_text (q : ascii) : string := triple q +:+ "doc" +:+ triple q.

(** A documentation string alone on its line, in either quoting style. *)
Definition doc_token (q : ascii) : TokenInfo :=
  {| tok_type := STRING; tok_string := doc_text q;
     tok_start := (1, 4); tok_end := (1, 13);
     tok_line := "    " +:+ doc_text q +:+ newline |}.

Definition dquote_doc_token : TokenInfo := doc_token dquote.
Definition squote_doc_token : TokenInfo := doc_token squote.

(** The same text as the value of an assignment: [s = ...]. *)
Definition assigned_doc_token : TokenInfo :=
  {| tok_type := STRING; tok_string := doc_text dquote;
     tok_start := (1, 4); tok_end := (1, 13);
     tok_line := "s = " +:+ doc_text dquote +:+ newline |}.

Definition comment_token : TokenInfo :=
  {| tok_type := COMMENT; tok_string := "# note";
     tok_start := (1, 0); tok_end := (1, 6); tok_line := "# note" +:+ newline |}.

(** The two trees of the end-to-end example: [a.py] with 5 lines and 10
    tokens, [b.py] with 3 lines and 3 tokens; then [a.py] alone with 7
    lines and 14 tokens. *)
Definition v1 : directory :=
  [py_file "a.py" (name_lines 5 2); py_file "b.py" (name_lines 3 1)].
Definition v2 : directory := [py_file "a.py" (name_lines 7 2)].

(** A third tree: [a.py] as in [v2], and a new file [c.py]. *)
Definition v3 : directory :=
  [py_file "a.py" (name_lines 7 2); py_file "c.py" (name_lines 4 1)].

(** A tree with files that have no counted line. *)
Definition v_docs : directory :=
  [py_file "a.py" (name_lines 5 2);
   py_file "notes.py" [comment_token];
   py_file "doc.py" [dquote_doc_token]].

(** A tree with sub-directories. *)
Definition v_tree : directory :=
  [py_file "x/y/a.py" (name_lines 5 2); py_file "b.py" (name_lines 3 1);
   py_file "x/y/c.py" (name_lines 7 2); py_file "x/z.py" (name_lines 1 1)].

Definition v_120 : directory := [py_file "big.py" (name_lines 120 1)].
Definition v_80 : directory := [py_file "big.py" (name_lines 80 1)].

Definition snapshots (p : string) : directory :=
  if String.eqb p "v1" then v1
  else if String.eqb p "v2" then v2
  else if String.eqb p "v3" then v3
  else if String.eqb p "docs" then v_docs
  else if String.eqb p "tree" then v_tree
  else if String.eqb p "big" then v_120
  else if String.eqb p "." then v_80
  else [].

(** The floats 1.0 and 2.0. *)
Definition one : float := S754_finite false 4503599627370496 (-52).
Definition two : float := S754_finite false 4503599627370496 (-51).

Definition stat (p : string) (n : Z) (d : float) : FileStat :=
  {| path := p; line_count := n; density := d |}.

Definition stats_v1 : list FileStat := [stat "a.py" 5 two; stat "b.py" 3 one].
Definition stats_v2 : list FileStat := [stat "a.py" 7 two].
Definition stats_v3 : list FileStat := [stat "a.py" 7 two; stat "c.py" 4 one].
Definition stats_tree : list FileStat :=
  [stat "x/y/a.py" 5 two; stat "b.py" 3 one; stat "x/y/c.py" 7 two; stat "x/z.py" 1 one].

(** A text of [n] digits 1. *)
Definition ones (n : Z) : string := string_of_list_ascii (replicate (Z.to_nat n) "1"%char).

(** A row whose density is not a number. *)
Definition nan_stats : list FileStat := [stat "a.py" 1 S754_nan].

(** ** Further auxiliary definitions *)

(** [r] is the row [gen_stats] builds for the file [f]. *)
Definition is_row_of (f : source_file) (r : FileStat) : Prop :=
  path r = relpath f
  /\ exists toks, tokenized f = Ok toks
       /\ line_count r = Z.of_nat (size (covered_lines (retained toks)))
       /\ int_truediv (Z.of_nat (length (retained toks))) (line_count r) = Ok (density r).

(** The file tokenizes. *)
Definition tokenizes (f : source_file) : Prop :=
  exists toks, tokenized f = Ok toks.

(** [c in s]. *)
Fixpoint has_char (c : ascii) (s : string) : bool :=
  match s with
  | EmptyString => false
  | String a s' => Ascii.eqb a c || has_char c s'
  end.

(** Every character of [s] is whitespace. *)
Fixpoint all_space (s : string) : bool :=
  match s with
  | EmptyString => true
  | String a s' => py_isspace a && all_space s'
  end.

(** The token [tok] met on another source line. *)
Definition with_line (tok : TokenInfo) (line : string) : TokenInfo :=
  {| tok_type := tok_type tok; tok_string := tok_string tok;
     tok_start := tok_start tok; tok_end := tok_end tok; tok_line := line |}.

(** The rows of a table that fall under a directory name. *)
Definition rows_under (dir_name : string) (table : list FileStat) : list FileStat :=
  filter (fun r => group_key (path r) = dir_name) table.

(** A token [gen_stats] leaves out: one of a type outside the whitelist, or
    a docstring. *)
Definition ignored (tok : TokenInfo) : bool :=
  negb (in_TOKEN_WHITELIST (tok_type tok)) || is_docstring tok.

(** * Properties *)

(** Closes a decidable goal about concrete data by evaluation. *)
Ltac decide_by_compute := apply (bool_decide_unpack _); vm_compute; exact I.

(** ** Sums and sorting *)

Lemma foldl_add_acc (l : list Z) (a : Z) : foldl Z.add a l = a + foldl Z.add 0 l.
Proof.
  revert a. induction l as [|x l IH]; intros a; simpl; [lia|].
  rewrite (IH (a + x)), (IH (0 + x)). lia.
Qed.

Lemma sum_Z_cons (x : Z) (l : list Z) : sum_Z (x :: l) = x + sum_Z l.
Proof. unfold sum_Z. simpl. apply foldl_add_acc. Qed.

Lemma sum_Z_app (l1 l2 : list Z) : sum_Z (l1 ++ l2) = sum_Z l1 + sum_Z l2.
Proof.
  induction l1 as [|x l1 IH]; simpl; [reflexivity|].
  rewrite !sum_Z_cons, IH. lia.
Qed.

Lemma sum_Z_Permutation (l1 l2 : list Z) : l1 ≡ₚ l2 -> sum_Z l1 = sum_Z l2.
Proof.
  induction 1 as [|x l1 l2 _ IH|x y l|l1 l2 l3 _ IH1 _ IH2];
    rewrite ?sum_Z_cons; try lia; congruence.
Qed.

Lemma sum_Z_pos (l : list Z) : Forall (fun n => 0 < n) l -> l <> [] -> 0 < sum_Z l.
Proof.
  induction 1 as [|x l Hx Hl IH]; [congruence|]. intros _.
  rewrite sum_Z_cons. destruct l as [|y l]; [cbn; lia|].
  assert (0 < sum_Z (y :: l)) by (apply IH; congruence). lia.
Qed.

Lemma insert_sorted_Permutation {A} (lt : A -> A -> bool) (x : A) (l : list A) :
  insert_sorted lt x l ≡ₚ x :: l.
Proof.
  induction l as [|y l IH]; simpl; [reflexivity|].
  destruct (lt y x); [|reflexivity].
  rewrite IH. apply Permutation_swap.
Qed.

Lemma py_sorted_Permutation {A} (lt : A -> A -> bool) (l : list A) : py_sorted lt l ≡ₚ l.
Proof.
  induction l as [|x l IH]; simpl; [reflexivity|].
  rewrite insert_sorted_Permutation. by f_equiv.
Qed.

(** ** The dictionaries of [gen_diff] *)

Lemma stats_map_nil : stats_map [] = ∅.
Proof. reflexivity. Qed.

Lemma stats_map_snoc (l : list FileStat) (r : FileStat) :
  stats_map (l ++ [r]) = <[path r := r]> (stats_map l).
Proof. unfold stats_map. by rewrite foldl_app. Qed.

Lemma stats_map_lookup_Some (l : list FileStat) (p : string) (r : FileStat) :
  stats_map l !! p = Some r -> r ∈ l /\ path r = p.
Proof.
  induction l as [|x l IH] using rev_ind; [by rewrite stats_map_nil, lookup_empty|].
  rewrite stats_map_snoc. intros H.
  destruct (decide (path x = p)) as [<-|Hne].
  - rewrite lookup_insert_eq in H. injection H as <-. split; [set_solver|done].
  - rewrite lookup_insert_ne in H by done. destruct (IH H). split; [set_solver|done].
Qed.

Lemma stats_map_lookup_None (l : list FileStat) (p : string) :
  stats_map l !! p = None <-> p ∉ paths l.
Proof.
  unfold paths. induction l as [|x l IH] using rev_ind.
  - rewrite stats_map_nil, lookup_empty. set_solver.
  - rewrite stats_map_snoc, fmap_app. simpl.
    destruct (decide (path x = p)) as [<-|Hne].
    + rewrite lookup_insert_eq. set_solver.
    + rewrite lookup_insert_ne by done. rewrite IH. set_solver.
Qed.

Lemma stats_map_lookup_NoDup (l : list FileStat) (r : FileStat) :
  NoDup (paths l) -> r ∈ l -> stats_map l !! path r = Some r.
Proof.
  unfold paths. induction l as [|x l IH] using rev_ind; [set_solver|].
  rewrite fmap_app. simpl. intros [Hl [Hx _]]%NoDup_app Hr.
  rewrite stats_map_snoc.
  apply elem_of_app in Hr as [Hr|Hr%list_elem_of_singleton].
  - rewrite lookup_insert_ne; [by apply IH|].
    intros Heq. apply (Hx (path r)); [|rewrite Heq; set_solver].
    by apply list_elem_of_fmap_2.
  - subst. by rewrite lookup_insert_eq.
Qed.

Lemma stats_map_find (l : list FileStat) (p : string) :
  NoDup (paths l) ->
  default (default_row p) (stats_map l !! p) = stat_of l p.
Proof.
  intros Hnd. unfold stat_of.
  destruct (List.find _ l) as [r|] eqn:Hf.
  - apply find_some in Hf as [Hin Heq]. apply String.eqb_eq in Heq. subst p.
    rewrite stats_map_lookup_NoDup; [done..|]. by apply list_elem_of_In.
  - destruct (stats_map l !! p) as [r|] eqn:Hl; [|done].
    apply stats_map_lookup_Some in Hl as [Hin Heq].
    apply list_elem_of_In in Hin.
    pose proof (find_none _ _ Hf _ Hin) as Hn. simpl in Hn.
    apply String.eqb_neq in Hn. done.
Qed.

(** ** The loop of [gen_diff] *)

Lemma diff_row_eq (om nm : gmap string FileStat) (k : string) :
  diff_row om nm k =
    let o := default (default_row k) (om !! k) in
    let n := default (default_row k) (nm !! k) in
    if changed o n then Some (delta_row k o n) else None.
Proof.
  unfold diff_row, gen_diff_step, changed, delta_row. cbv zeta.
  by destruct (negb _ || negb _).
Qed.

Lemma gen_diff_step_diff_row (om nm : gmap string FileStat) (acc : list DiffRow) (k : string) :
  gen_diff_step om nm acc k = acc ++ option_list (diff_row om nm k).
Proof.
  unfold diff_row, gen_diff_step. cbv zeta.
  destruct (negb _ || negb _); simpl; [done|by rewrite app_nil_r].
Qed.

Lemma foldl_gen_diff_step (om nm : gmap string FileStat) (ks : list string) (acc : list DiffRow) :
  foldl (gen_diff_step om nm) acc ks = acc ++ omap (diff_row om nm) ks.
Proof.
  revert acc. induction ks as [|k ks IH]; intros acc; simpl; [by rewrite app_nil_r|].
  rewrite IH, gen_diff_step_diff_row.
  destruct (diff_row om nm k); simpl; by rewrite <- ?app_assoc, ?app_nil_r.
Qed.

Lemma gen_diff_omap (old new : list FileStat) :
  gen_diff old new = omap (diff_row (stats_map old) (stats_map new)) (diff_keys old new).
Proof. unfold gen_diff, diff_keys. cbv zeta. by rewrite foldl_gen_diff_step. Qed.

Lemma diff_keys_NoDup (old new : list FileStat) : NoDup (diff_keys old new).
Proof.
  unfold diff_keys. rewrite py_sorted_Permutation. apply NoDup_elements.
Qed.

Lemma elem_of_diff_keys (old new : list FileStat) (k : string) :
  k ∈ diff_keys old new <-> k ∈ paths old \/ k ∈ paths new.
Proof.
  unfold diff_keys. rewrite py_sorted_Permutation, elem_of_elements, elem_of_union.
  rewrite !elem_of_dom, <- !not_eq_None_Some, !stats_map_lookup_None.
  split; intros [H|H]; (left + right); (by apply dec_stable + by intros ?).
Qed.

(** With unique paths the dictionary lookups are lookups in the lists. *)
Lemma gen_diff_stat_of (old new : list FileStat) :
  NoDup (paths old) -> NoDup (paths new) ->
  gen_diff old new =
    omap (fun k => if changed (stat_of old k) (stat_of new k)
                   then Some (delta_row k (stat_of old k) (stat_of new k)) else None)
         (diff_keys old new).
Proof.
  intros Ho Hn. rewrite gen_diff_omap. apply list_omap_ext.
  apply Forall_Forall2_diag, Forall_forall. intros k _.
  by rewrite diff_row_eq, !stats_map_find.
Qed.

(** ** Lookups in a stat collection *)

Lemma stat_of_nil (p : string) : stat_of [] p = default_row p.
Proof. reflexivity. Qed.

Lemma stat_of_cons_eq (r : FileStat) (l : list FileStat) : stat_of (r :: l) (path r) = r.
Proof. unfold stat_of. simpl. by rewrite String.eqb_refl. Qed.

Lemma stat_of_cons_ne (r : FileStat) (l : list FileStat) (p : string) :
  path r <> p -> stat_of (r :: l) p = stat_of l p.
Proof.
  intros Hne. unfold stat_of. simpl.
  by apply String.eqb_neq in Hne as ->.
Qed.

Lemma stat_of_elem (l : list FileStat) (r : FileStat) :
  NoDup (paths l) -> r ∈ l -> stat_of l (path r) = r.
Proof.
  intros Hnd Hr. rewrite <- stats_map_find by done.
  by rewrite stats_map_lookup_NoDup.
Qed.

Lemma stat_of_missing (l : list FileStat) (p : string) :
  p ∉ paths l -> stat_of l p = default_row p.
Proof.
  intros Hp. unfold stat_of.
  destruct (List.find _ l) as [r|] eqn:Hf; [|done].
  apply find_some in Hf as [Hin Heq]. apply String.eqb_eq in Heq.
  destruct Hp. subst p. apply list_elem_of_fmap_2. by apply list_elem_of_In.
Qed.

Lemma sum_Z_zeros {A} (ks : list A) : sum_Z (map (fun _ => 0) ks) = 0.
Proof. induction ks as [|k ks IH]; [done|]. simpl. rewrite sum_Z_cons. lia. Qed.

Lemma sum_Z_map_sub {A} (f g : A -> Z) (ks : list A) :
  sum_Z (map (fun k => f k - g k) ks) = sum_Z (map f ks) - sum_Z (map g ks).
Proof.
  induction ks as [|k ks IH]; [done|]. simpl. rewrite !sum_Z_cons, IH. lia.
Qed.

(** Summing the looked-up line counts over any duplicate-free list of names
    that covers the collection gives the collection's total. *)
Lemma sum_stat_of (l : list FileStat) :
  NoDup (paths l) ->
  forall ks : list string, NoDup ks -> (forall p, p ∈ paths l -> p ∈ ks) ->
  sum_Z (map (fun k => line_count (stat_of l k)) ks) = total_lines l.
Proof.
  unfold total_lines.
  induction l as [|r l IH]; intros Hnd ks Hks Hcover.
  - apply sum_Z_zeros.
  - change (paths (r :: l)) with (path r :: paths l) in Hnd.
    apply NoDup_cons in Hnd as [Hr Hnd].
    assert (path r ∈ ks) as [ks' Hperm]%elem_of_Permutation
      by (apply Hcover; unfold paths; set_solver).
    rewrite (sum_Z_Permutation _ _ (fmap_Permutation _ _ _ Hperm)).
    rewrite Hperm in Hks. apply NoDup_cons in Hks as [Hr' Hks'].
    simpl. rewrite !sum_Z_cons, stat_of_cons_eq. f_equal.
    rewrite <- (IH Hnd ks' Hks').
    + f_equal. apply map_ext_in. intros k Hk%list_elem_of_In.
      rewrite stat_of_cons_ne; [done|by intros <-].
    + intros p Hp. assert (p ∈ ks) as Hin by (apply Hcover; unfold paths; set_solver).
      rewrite Hperm in Hin. apply elem_of_cons in Hin as [->|]; [|done].
      by destruct Hr.
Qed.

Lemma sum_line_delta_omap (o n : string -> FileStat) (ks : list string) :
  sum_Z (map line_delta
           (omap (fun k => if changed (o k) (n k)
                           then Some (delta_row k (o k) (n k)) else None) ks))
  = sum_Z (map (fun k => line_count (n k) - line_count (o k)) ks).
Proof.
  induction ks as [|k ks IH]; [done|].
  csimpl. destruct (changed (o k) (n k)) eqn:Hc; csimpl; rewrite !sum_Z_cons.
  - by rewrite IH.
  - unfold changed in Hc. apply orb_false_iff in Hc as [Hc _].
    apply negb_false_iff, Z.eqb_eq in Hc. rewrite IH. lia.
Qed.

Lemma gen_diff_sum_line_delta (old new : list FileStat) :
  NoDup (paths old) -> NoDup (paths new) ->
  sum_Z (map line_delta (gen_diff old new)) = total_lines new - total_lines old.
Proof.
  intros Ho Hn. rewrite gen_diff_stat_of by done.
  rewrite sum_line_delta_omap, sum_Z_map_sub.
  rewrite !sum_stat_of; auto using diff_keys_NoDup.
  - intros p Hp. apply elem_of_diff_keys. by left.
  - intros p Hp. apply elem_of_diff_keys. by right.
Qed.

(** ** The two modes of [main] *)

Lemma main_diff_mode (o n : string) (fs : string -> directory) (env : option string)
    (old new : list FileStat) :
  gen_stats (fs o) = Ok old -> gen_stats (fs n) = Ok new ->
  main [o; n] fs env = report_diff (gen_diff old new).
Proof. intros Ho Hn. unfold main. by rewrite Ho, Hn. Qed.

Lemma report_diff_nonempty (table : list DiffRow) :
  table <> [] ->
  report_diff table =
    ([Line "### Changes:"; Line "```";
      DiffTable diff_headers (sorted_by_key_desc new_line_count table);
      Line (newline +:+ "total lines changed: " +:+ display_diff (sum_Z (map line_delta table)));
      Line "```"], Ok tt).
Proof. by destruct table. Qed.

(** ** Float subtraction against zero and against itself *)

Lemma float_sub_zero_r (x : float) : Float.sub x Float.zero = x.
Proof. by destruct x as [[]|[]| |s m e]. Qed.

Lemma float_sub_zero_l (x : float) :
  x <> Float.zero -> Float.sub Float.zero x = Float.opp x.
Proof. by destruct x as [[]|[]| |s m e]. Qed.

Lemma float_eqb_refl (x : float) : Float.is_nan x = false -> Float.eqb x x = true.
Proof.
  destruct x as [[]|[]| |[] m e]; try done; intros _;
    unfold Float.eqb, SFeqb, SFcompare;
    by rewrite Z.compare_refl, Pos.compare_cont_refl.
Qed.

Lemma float_sub_zero_l_eqb (x : float) :
  Float.is_nan x = false -> Float.eqb (Float.sub Float.zero x) (Float.opp x) = true.
Proof.
  destruct x as [[]|[]| |s m e]; try done. intros _.
  by apply (float_eqb_refl (S754_finite (negb s) m e)).
Qed.

Lemma float_eqb_zero_opp (x : float) :
  Float.eqb (Float.sub Float.zero x) Float.zero = Float.eqb x Float.zero.
Proof. by destruct x as [[]|[]| |[] m e]. Qed.

Lemma float_sub_diag (x : float) : Float.is_finite x = true -> Float.sub x x = Float.zero.
Proof.
  destruct x as [[]|[]| |s m e]; try done. intros _.
  unfold Float.sub, SFsub. by rewrite Z.sub_diag.
Qed.

(** ** Rows of [gen_diff], one file name at a time *)

Lemma omap_all_None {A B} (f : A -> option B) (l : list A) :
  (forall x, x ∈ l -> f x = None) -> omap f l = [].
Proof.
  induction l as [|x l IH]; intros H; [done|]. csimpl.
  rewrite (H x) by set_solver. apply IH. intros y Hy. apply H. set_solver.
Qed.

Lemma count_omap_key (g : string -> option DiffRow) (ks : list string) (p : string) :
  (forall k row, g k = Some row -> d_path row = k) -> NoDup ks ->
  length (filter (fun row => d_path row = p) (omap g ks)) =
    if decide (p ∈ ks) then (if g p is Some _ then 1%nat else 0%nat) else 0%nat.
Proof.
  intros Hg. induction ks as [|k ks IH]; intros Hnd.
  - by case_decide; [set_solver|].
  - apply NoDup_cons in Hnd as [Hk Hnd]. specialize (IH Hnd). csimpl.
    destruct (decide (k = p)) as [->|Hne].
    + rewrite decide_True in * by set_solver.
      rewrite decide_False in IH by done.
      destruct (g p) as [row|] eqn:Hgp; [|done].
      rewrite filter_cons_True by eauto. simpl. by rewrite IH.
    + assert (length (filter (fun row => d_path row = p)
                        (match g k with Some y => y :: omap g ks | None => omap g ks end))
              = length (filter (fun row => d_path row = p) (omap g ks))) as ->.
      { destruct (g k) as [row|] eqn:Hgk; [|done].
        rewrite filter_cons_False; [done|]. by rewrite (Hg _ _ Hgk). }
      rewrite IH. repeat case_decide; set_solver.
Qed.

(** The diff row of a file present in the new collection only. *)
Lemma gen_diff_added (old new : list FileStat) (r : FileStat) :
  NoDup (paths new) -> r ∈ new -> path r ∉ paths old ->
  line_count r <> 0 \/ Float.eqb (density r) Float.zero = false ->
  {| d_path := path r; new_line_count := line_count r; line_delta := line_count r;
     new_density := density r; density_delta := density r |} ∈ gen_diff old new.
Proof.
  intros Hnd Hr Hold Hnz. rewrite gen_diff_omap. apply list_elem_of_omap.
  exists (path r). split.
  - apply elem_of_diff_keys. right. by apply list_elem_of_fmap_2.
  - rewrite diff_row_eq. cbv zeta.
    rewrite (stats_map_lookup_NoDup new r) by done.
    apply stats_map_lookup_None in Hold as ->.
    unfold changed, delta_row, default_row.
    cbn [default from_option id line_count density].
    rewrite Z.sub_0_r, float_sub_zero_r.
    destruct Hnz as [Hn|Hd].
    + apply Z.eqb_neq in Hn as ->. done.
    + rewrite Hd, orb_true_r. done.
Qed.

(** The diff row of a file present in the old collection only. *)
Lemma gen_diff_removed (old new : list FileStat) (r : FileStat) :
  NoDup (paths old) -> r ∈ old -> path r ∉ paths new ->
  line_count r <> 0 \/ Float.eqb (density r) Float.zero = false ->
  {| d_path := path r; new_line_count := 0; line_delta := - line_count r;
     new_density := Float.zero; density_delta := Float.sub Float.zero (density r) |}
    ∈ gen_diff old new.
Proof.
  intros Hnd Hr Hnew Hnz. rewrite gen_diff_omap. apply list_elem_of_omap.
  exists (path r). split.
  - apply elem_of_diff_keys. left. by apply list_elem_of_fmap_2.
  - rewrite diff_row_eq. cbv zeta.
    rewrite (stats_map_lookup_NoDup old r) by done.
    apply stats_map_lookup_None in Hnew as ->.
    unfold changed, delta_row, default_row.
    cbn [default from_option id line_count density].
    rewrite float_eqb_zero_opp.
    destruct Hnz as [Hn|Hd].
    + assert (0 - line_count r <> 0) as ->%Z.eqb_neq by lia. done.
    + rewrite Hd, orb_true_r. done.
Qed.

(** ** The statistics collector *)

Lemma gen_stats_file_Ok (acc out : list FileStat) (f : source_file) :
  gen_stats_file acc f = Ok out ->
  exists toks, tokenized f = Ok toks /\
    let tokens := retained toks in
    let n := Z.of_nat (size (covered_lines tokens)) in
    if has_lines f
    then exists d, int_truediv (Z.of_nat (length tokens)) n = Ok d /\ 0 < n /\
                   out = acc ++ [{| path := relpath f; line_count := n; density := d |}]
    else out = acc.
Proof.
  unfold gen_stats_file, has_lines.
  destruct (tokenized f) as [toks|e]; [|done]. simpl. intros H.
  exists toks. split; [done|].
  destruct (0 <? _) eqn:Hpos; [|by injection H].
  destruct (int_truediv _ _) as [d|e]; [|done]. simpl in H. injection H as <-.
  exists d. repeat split. by apply Z.ltb_lt.
Qed.

(** The rows added for a list of files: one per file that has lines, in
    order, under the file's relative path and with a positive count. *)
Lemma gen_stats_from_Ok (files : directory) (acc out : list FileStat) :
  gen_stats_from acc files = Ok out ->
  exists rows, out = acc ++ rows
    /\ Forall (fun r => 0 < line_count r) rows
    /\ paths rows = map relpath (List.filter has_lines files).
Proof.
  revert acc. induction files as [|f files IH]; intros acc; simpl.
  - intros [= <-]. exists []. by rewrite app_nil_r.
  - destruct (gen_stats_file acc f) as [acc'|e] eqn:Hf; [|done]. simpl.
    intros (rows & -> & Hpos & Hpaths)%IH.
    apply gen_stats_file_Ok in Hf as (toks & Htok & Hf). cbv zeta in Hf.
    destruct (has_lines f).
    + destruct Hf as (d & _ & Hn & ->).
      eexists (_ :: rows). rewrite <- app_assoc. split; [done|].
      split; [by constructor|]. simpl. by rewrite <- Hpaths.
    + subst acc'. by exists rows.
Qed.

Lemma gen_stats_Ok (base : directory) (stats : list FileStat) :
  gen_stats base = Ok stats ->
  Forall (fun r => 0 < line_count r) stats
  /\ paths stats = map relpath (List.filter has_lines base).
Proof. by intros (rows & -> & ? & ?)%gen_stats_from_Ok. Qed.

Lemma gen_stats_from_rows (files : directory) (acc out : list FileStat) :
  gen_stats_from acc files = Ok out ->
  exists rows, out = acc ++ rows
    /\ Forall2 is_row_of (List.filter has_lines files) rows
    /\ Forall tokenizes files.
Proof.
  revert acc. induction files as [|f files IH]; intros acc; simpl.
  - intros [= <-]. exists []. by rewrite app_nil_r.
  - destruct (gen_stats_file acc f) as [acc'|e] eqn:Hf; [|done]. simpl.
    intros (rows & -> & Hrows & Htok)%IH.
    apply gen_stats_file_Ok in Hf as (toks & Hf & Hrow). cbv zeta in Hrow.
    assert (tokenizes f) by (by exists toks).
    destruct (has_lines f).
    + destruct Hrow as (d & Hd & _ & ->).
      eexists (_ :: rows). rewrite <- app_assoc. split; [done|].
      split; [|by constructor]. constructor; [|done].
      split; [done|]. by exists toks.
    + subst acc'. exists rows. repeat split; [done|by constructor].
Qed.

Lemma NoDup_map_inj {A B} (g : A -> B) (l : list A) (x y : A) :
  NoDup (map g l) -> x ∈ l -> y ∈ l -> g x = g y -> x = y.
Proof.
  induction l as [|z l IH]; simpl; [by intros _ ?%elem_of_nil|].
  intros [Hz Hl]%NoDup_cons [->|Hx]%elem_of_cons [->|Hy]%elem_of_cons Heq; auto.
  - destruct Hz. rewrite Heq. by apply list_elem_of_fmap_2.
  - destruct Hz. rewrite <- Heq. by apply list_elem_of_fmap_2.
Qed.

(** ** Docstring tokens *)

Lemma is_docstring_true (tok : TokenInfo) :
  is_docstring tok = true <->
  tok_type tok = STRING
  /\ startswith (tok_string tok) (triple dquote) = true
  /\ startswith (strip (tok_line tok)) (triple dquote) = true.
Proof.
  unfold is_docstring. rewrite !andb_true_iff.
  assert (is_STRING (tok_type tok) = true <-> tok_type tok = STRING) as ->
    by (by destruct (tok_type tok)).
  tauto.
Qed.

Lemma startswith_cons (q c : ascii) (p s : string) :
  startswith (String c s) (String q p) = if Ascii.eqb q c then startswith s p else false.
Proof.
  unfold startswith. cbn [String.prefix].
  destruct (ascii_dec q c) as [->|Hne].
  - by rewrite Ascii.eqb_refl.
  - by apply Ascii.eqb_neq in Hne as ->.
Qed.

Lemma startswith_squote_not_dquote (s : string) :
  startswith s (triple squote) = true -> startswith s (triple dquote) = false.
Proof.
  destruct s as [|c s]; [done|]. unfold triple. rewrite !startswith_cons.
  destruct (Ascii.eqb_spec squote c) as [<-|]; done.
Qed.

Lemma retained_app (l1 l2 : list TokenInfo) : retained (l1 ++ l2) = retained l1 ++ retained l2.
Proof. apply List.filter_app. Qed.

Lemma retained_cons_docstring (tok : TokenInfo) (l : list TokenInfo) :
  is_docstring tok = true -> retained (tok :: l) = retained l.
Proof. intros H. unfold retained. simpl. by rewrite H, andb_false_r. Qed.

Lemma retained_cons_squote (tok : TokenInfo) (l : list TokenInfo) :
  tok_type tok = STRING -> startswith (tok_string tok) (triple squote) = true ->
  retained (tok :: l) = tok :: retained l.
Proof.
  intros Ht Hs. unfold retained, is_docstring. simpl.
  by rewrite Ht, (startswith_squote_not_dquote _ Hs).
Qed.

Lemma elem_of_covered_lines (tokens : list TokenInfo) (tok : TokenInfo) (ln : Z) :
  tok ∈ tokens -> fst (tok_start tok) <= ln <= fst (tok_end tok) ->
  ln ∈ covered_lines tokens.
Proof.
  intros Htok Hln. unfold covered_lines.
  apply elem_of_list_to_set, list_elem_of_bind. exists tok. split; [|done].
  unfold token_lines, range. apply elem_of_seqZ. lia.
Qed.

(** ** Single-snapshot mode *)

Lemma main_single_mode (args : list string) (fs : string -> directory) (env : option string)
    (table : list FileStat) :
  length args <> 2%nat -> gen_stats (fs (base_arg args)) = Ok table ->
  main args fs env = report_stats env table.
Proof.
  intros Hlen Hg. unfold main.
  destruct args as [|a [|b [|c args]]]; simpl in *; try done; by rewrite Hg.
Qed.

Lemma report_stats_nonempty (env : option string) (table : list FileStat) :
  table <> [] ->
  report_stats env table =
    ([StatTable stat_headers (sorted_by_key_desc line_count table)]
       ++ map group_line (dir_groups (sorted_by_key_desc line_count table))
       ++ [Line (newline +:+ "total line count: " +:+ str_int (total_lines table))],
     check_max_count env (total_lines table)).
Proof. by destruct table. Qed.

Lemma check_max_count_set (text : string) (n total : Z) :
  py_int text = Ok n ->
  check_max_count (Some text) total =
    if (n =? -1) || (total <=? n) then Ok tt
    else Raise (AssertionError ("OVER " +:+ str_int n +:+ " LINES")).
Proof. intros H. unfold check_max_count. simpl. by rewrite H. Qed.

Lemma check_max_count_unset (total : Z) : check_max_count None total = Ok tt.
Proof. reflexivity. Qed.

(** ** Order of strings and of the summary tuples *)

Lemma string_ltb_le (a b : string) : String.ltb a b = true -> String.le a b.
Proof.
  unfold String.le, String.ltb, String.leb.
  by destruct (String.compare a b).
Qed.

Lemma string_not_ltb_le (a b : string) : String.ltb a b = false -> String.le b a.
Proof.
  unfold String.le, String.ltb, String.leb.
  rewrite (String.compare_antisym b a).
  by destruct (String.compare a b) eqn:Hc.
Qed.

Lemma group_item_lt_le (y x : group_item) :
  group_item_lt y x = true -> String.le (item_key y) (item_key x).
Proof.
  destruct y as [[ky ny] dy], x as [[kx nx] dx]. unfold group_item_lt, item_key. simpl.
  destruct (String.eqb ky kx) eqn:Heq; simpl.
  - apply String.eqb_eq in Heq as ->. done.
  - apply string_ltb_le.
Qed.

Lemma group_item_not_lt_le (y x : group_item) :
  group_item_lt y x = false -> String.le (item_key x) (item_key y).
Proof.
  destruct y as [[ky ny] dy], x as [[kx nx] dx]. unfold group_item_lt, item_key. simpl.
  destruct (String.eqb ky kx) eqn:Heq; simpl.
  - apply String.eqb_eq in Heq as ->. done.
  - apply string_not_ltb_le.
Qed.

(** [py_sorted] sorts for every transitive relation that the comparison
    respects. *)
Lemma insert_sorted_StronglySorted {A} (R : relation A) `{!Transitive R}
    (lt : A -> A -> bool) (x : A) (l : list A) :
  (forall y, lt y x = true -> R y x) -> (forall y, lt y x = false -> R x y) ->
  StronglySorted R l -> StronglySorted R (insert_sorted lt x l).
Proof.
  intros Hlt Hge. induction 1 as [|y l Hl IH Hy]; simpl.
  - by repeat constructor.
  - destruct (lt y x) eqn:Hyx.
    + constructor; [done|]. rewrite insert_sorted_Permutation.
      constructor; [by apply Hlt|done].
    + constructor; [by constructor|].
      constructor; [by apply Hge|].
      eapply Forall_impl; [exact Hy|]. intros z Hz. simpl.
      trans y; [by apply Hge|done].
Qed.

Lemma py_sorted_StronglySorted {A} (R : relation A) `{!Transitive R}
    (lt : A -> A -> bool) (l : list A) :
  (forall x y, lt y x = true -> R y x) -> (forall x y, lt y x = false -> R x y) ->
  StronglySorted R (py_sorted lt l).
Proof.
  intros Hlt Hge. induction l as [|x l IH]; simpl; [constructor|].
  apply insert_sorted_StronglySorted; auto.
Qed.

(** The file names of [gen_diff] come in lexicographic order. *)
Lemma diff_keys_sorted (old new : list FileStat) :
  StronglySorted String.le (diff_keys old new).
Proof.
  unfold diff_keys. apply (py_sorted_StronglySorted String.le).
  - intros x y. apply string_ltb_le.
  - intros x y. apply string_not_ltb_le.
Qed.

(** The rows [main] prints come by decreasing key. *)
Lemma sorted_by_key_desc_sorted {A} (key : A -> Z) (l : list A) :
  StronglySorted (fun a b => key b <= key a) (sorted_by_key_desc key l).
Proof.
  assert (Transitive (fun a b : A => key b <= key a)) as Htrans
    by (intros a b c ? ?; lia).
  unfold sorted_by_key_desc. apply (py_sorted_StronglySorted _).
  - intros x y Hlt%Z.ltb_lt. lia.
  - intros x y Hge%Z.ltb_ge. lia.
Qed.

(** ** [groupby] *)

Lemma groupby_cons {A} (key : A -> string) (x : A) (l : list A) :
  exists g gs, groupby key (x :: l) = (key x, x :: g) :: gs
    /\ (groupby key l = [] /\ g = [] /\ gs = []
        \/ groupby key l = (key x, g) :: gs
        \/ g = [] /\ gs = groupby key l /\
           exists k g', groupby key l = (k, g') :: tl gs /\ k <> key x).
Proof.
  simpl. destruct (groupby key l) as [|[k g] gs] eqn:Hg.
  - exists [], []. auto.
  - destruct (String.eqb (key x) k) eqn:Heq.
    + apply String.eqb_eq in Heq as <-. exists g, gs. auto.
    + apply String.eqb_neq in Heq. exists [], ((k, g) :: gs).
      split; [done|]. right. right. repeat split. exists k, g. auto.
Qed.

Lemma groupby_concat {A} (key : A -> string) (l : list A) :
  concat (map snd (groupby key l)) = l.
Proof.
  induction l as [|x l IH]; [done|].
  destruct (groupby_cons key x l) as (g & gs & -> & [(H & -> & ->)|[H|(-> & -> & _)]]);
    rewrite ?H in IH; simpl in *; by rewrite ?IH.
Qed.

Lemma groupby_keys {A} (key : A -> string) (l : list A) :
  Forall (fun g => snd g <> [] /\ Forall (fun x => key x = fst g) (snd g)) (groupby key l).
Proof.
  induction l as [|x l IH]; [constructor|].
  destruct (groupby_cons key x l) as (g & gs & -> & [(H & -> & ->)|[H|(-> & -> & _)]]).
  - repeat constructor. done.
  - rewrite H in IH. apply Forall_cons in IH as [[_ Hg] Hgs].
    constructor; [|done]. split; [done|]. by constructor.
  - constructor; [|done]. split; [done|]. by repeat constructor.
Qed.

Lemma groupby_fst_elem {A} (key : A -> string) (l : list A) (k : string) :
  k ∈ map fst (groupby key l) -> k ∈ map key l.
Proof.
  intros (g & -> & Hg)%list_elem_of_fmap_1.
  pose proof (groupby_keys key l) as Hall.
  rewrite Forall_forall in Hall. destruct (Hall _ Hg) as [Hne Hk].
  destruct (snd g) as [|x gx] eqn:Hx; [done|]. apply Forall_cons in Hk as [<- _].
  apply list_elem_of_fmap_2. rewrite <- (groupby_concat key l).
  apply list_elem_of_In, in_concat. exists (snd g). split.
  - apply in_map. by apply list_elem_of_In.
  - rewrite Hx. by left.
Qed.

Lemma groupby_NoDup {A} (key : A -> string) (l : list A) :
  StronglySorted (fun a b => String.le (key a) (key b)) l ->
  NoDup (map fst (groupby key l)).
Proof.
  induction 1 as [|x l Hl IH Hx]; [constructor|].
  destruct (groupby_cons key x l) as (g & gs & -> & [(H & -> & ->)|[H|(-> & -> & Hk)]]).
  - simpl. apply NoDup_singleton.
  - by rewrite H in IH.
  - simpl. apply NoDup_cons. split; [|done].
    intros Hin%groupby_fst_elem.
    destruct Hk as (k & g' & Hg & Hne).
    destruct l as [|y l]; [done|].
    destruct (groupby_cons key y l) as (g2 & gs2 & Hy & _).
    rewrite Hy in Hg. assert (k = key y) as -> by congruence.
    apply Forall_cons in Hx as [Hxy Hx].
    apply StronglySorted_inv in Hl as [_ Hyl].
    destruct Hne. apply (anti_symm String.le); [|done].
    simpl in Hin. apply elem_of_cons in Hin as [Heq|Hin]; [by rewrite Heq|].
    apply list_elem_of_fmap_1 in Hin as (z & -> & Hz).
    rewrite Forall_forall in Hyl. by apply Hyl.
Qed.

Lemma sum_Z_concat {A} (f : A -> Z) (gs : list (list A)) :
  sum_Z (map (fun g => sum_Z (map f g)) gs) = sum_Z (map f (concat gs)).
Proof.
  induction gs as [|g gs IH]; [done|]. simpl.
  by rewrite sum_Z_cons, map_app, sum_Z_app, IH.
Qed.

Lemma item_key_le_trans :
  Transitive (fun a b : group_item => String.le (item_key a) (item_key b)).
Proof. intros a b c Hab Hbc. by trans (item_key b). Qed.

(** The directory summary of any table: the subtotals add up to the
    table's total, the groups hold the rows' tuples, each under its own
    key, and no key comes twice. *)
Lemma dir_groups_spec (table : list FileStat) :
  let groups := dir_groups table in
  sum_Z (map (fun g => group_total (snd g)) groups) = total_lines table
  /\ concat (map snd groups) ≡ₚ map group_item_of table
  /\ Forall (fun g => snd g <> [] /\ Forall (fun it => item_key it = fst g) (snd g)) groups
  /\ NoDup (map fst groups).
Proof.
  unfold dir_groups. cbv zeta. repeat split.
  - unfold group_total.
    rewrite <- (map_map snd (fun g => sum_Z (map item_lines g))).
    rewrite sum_Z_concat, groupby_concat.
    rewrite (sum_Z_Permutation _ (map item_lines (map group_item_of table))).
    + by rewrite map_map.
    + apply fmap_Permutation, py_sorted_Permutation.
  - rewrite groupby_concat. apply py_sorted_Permutation.
  - apply groupby_keys.
  - apply groupby_NoDup.
    apply (@py_sorted_StronglySorted _ _ item_key_le_trans).
    + intros x y. apply group_item_lt_le.
    + intros x y. apply group_item_not_lt_le.
Qed.

(** ** The examples, computed *)

Example gen_stats_v1 : gen_stats v1 = Ok stats_v1.
Proof. by vm_compute. Qed.

Example gen_stats_v2 : gen_stats v2 = Ok stats_v2.
Proof. by vm_compute. Qed.

Example gen_stats_v3 : gen_stats v3 = Ok stats_v3.
Proof. by vm_compute. Qed.

Example gen_stats_tree : gen_stats v_tree = Ok stats_tree.
Proof. by vm_compute. Qed.

(** The end-to-end example: [a.py] grows by 2 lines at unchanged density,
    [b.py] drops from 3 lines and density 1.0 to nothing. *)
Example gen_diff_v1_v2 :
  gen_diff stats_v1 stats_v2 =
    [ {| d_path := "a.py"; new_line_count := 7; line_delta := 2;
         new_density := two; density_delta := Float.zero |};
      {| d_path := "b.py"; new_line_count := 0; line_delta := -3;
         new_density := Float.zero; density_delta := Float.opp one |} ].
Proof. by vm_compute. Qed.

(** A documentation string on its own line is a docstring; the same text
    assigned on its line is not. *)
Example is_docstring_standalone :
  is_docstring dquote_doc_token = true /\ is_docstring assigned_doc_token = false.
Proof. by vm_compute. Qed.

Example main_tree :
  main ["tree"] snapshots (Some "16") =
    ([StatTable stat_headers
        [stat "x/y/c.py" 7 two; stat "x/y/a.py" 5 two; stat "b.py" 3 one; stat "x/z.py" 1 one];
      Line "b.py                           :      3";
      Line "x/y                            :     12";
      Line "x/z.py                         :      1";
      Line (newline +:+ "total line count: 16")], Ok tt).
Proof. by vm_compute. Qed.

(** [int()] on texts around the edges of what it accepts: blanks, tabs and
    a no-break space around the number pass, the separators 28 to 31 do
    not; one underscore between digits passes; a sign takes no blank after
    it. *)
Example py_int_texts :
  py_int " 100 " = Ok 100
  /\ py_int (String "009"%char "100" +:+ newline) = Ok 100
  /\ py_int (String "160"%char "100") = Ok 100
  /\ py_int (String "028"%char "100") = Raise ValueError
  /\ py_int ("100" +:+ String "031"%char EmptyString) = Raise ValueError
  /\ py_int (String "029"%char "-2") = Raise ValueError
  /\ py_int "+7" = Ok 7 /\ py_int "-0012" = Ok (-12)
  /\ py_int "1_000" = Ok 1000 /\ py_int "1__0" = Raise ValueError
  /\ py_int "_1" = Raise ValueError /\ py_int "1_" = Raise ValueError
  /\ py_int "- 1" = Raise ValueError /\ py_int "--1" = Raise ValueError
  /\ py_int EmptyString = Raise ValueError /\ py_int "1.0" = Raise ValueError.
Proof. by vm_compute. Qed.

(** [int()] refuses 4301 digits, leading zeros and digits after a sign
    counted; up to 4300 digits the limit plays no part. *)
Example py_int_digit_limit :
  py_int (ones 4301) = Raise ValueError
  /\ py_int ("0" +:+ ones 4300) = Raise ValueError
  /\ py_int ("-" +:+ ones 4301) = Raise ValueError
  /\ parse_literal (ones 4300) = parse_digits 0 false (ones 4300)
  /\ parse_literal ("1_" +:+ ones 4299) = parse_digits 0 false ("1_" +:+ ones 4299).
Proof.
  split; [by vm_compute|]. split; [by vm_compute|]. split; [by vm_compute|].
  unfold parse_literal.
  assert (count_digits (ones 4300) = 4300) as -> by (by vm_compute).
  assert (count_digits ("1_" +:+ ones 4299) = 4300) as -> by (by vm_compute).
  done.
Qed.

(** A threshold text that [int()] refuses ends the run in [ValueError],
    after the report. *)
Example main_threshold_not_an_integer :
  snd (main ["big"] snapshots (Some (String "028"%char "100"))) = Raise ValueError
  /\ snd (main ["big"] snapshots (Some (ones 4301))) = Raise ValueError
  /\ fst (main ["big"] snapshots (Some (ones 4301))) = fst (main ["big"] snapshots None).
Proof. by vm_compute. Qed.

(** A file that holds a documentation string in single-quote triple quotes
    has a row; the same file in double-quote triple quotes has none. *)
Example gen_stats_doc_only :
  gen_stats [py_file "d.py" [squote_doc_token]] = Ok [stat "d.py" 1 one]
  /\ gen_stats [py_file "d.py" [dquote_doc_token]] = Ok [].
Proof. by vm_compute. Qed.

(** Without the guarantee that densities are numbers, a snapshot differs
    from itself. *)
Example gen_diff_nan : gen_diff nan_stats nan_stats <> [].
Proof. by vm_compute. Qed.

(** * The claims *)

(** C1.  For stat collections [old] and [new] with unique paths, the line
    deltas of the rows [gen_diff] returns add up to the total line count of
    [new] minus that of [old], although rows with both deltas zero are left
    out; and when the diff is not empty, [main] in diff mode prints that
    very number, signed, as its grand total. *)
Theorem diff_total_is_new_minus_old (old new : list FileStat) :
  NoDup (paths old) -> NoDup (paths new) ->
  sum_Z (map line_delta (gen_diff old new)) = total_lines new - total_lines old
  /\ forall (o n : string) (fs : string -> directory) (env : option string),
       gen_stats (fs o) = Ok old -> gen_stats (fs n) = Ok new ->
       gen_diff old new <> [] ->
       main [o; n] fs env =
         ([Line "### Changes:"; Line "```";
           DiffTable diff_headers (sorted_by_key_desc new_line_count (gen_diff old new));
           Line (newline +:+ "total lines changed: "
                   +:+ display_diff (total_lines new - total_lines old));
           Line "```"], Ok tt).
Proof.
  intros Ho Hn. split; [by apply gen_diff_sum_line_delta|].
  intros o n fs env Hold Hnew Hne.
  rewrite (main_diff_mode _ _ _ _ _ _ Hold Hnew), report_diff_nonempty by done.
  by rewrite gen_diff_sum_line_delta.
Qed.

Lemma diff_total_is_new_minus_old_witness :
  NoDup (paths stats_v1) /\ NoDup (paths stats_v2)
  /\ sum_Z (map line_delta (gen_diff stats_v1 stats_v2)) = 7 - 8
  /\ Line (newline +:+ "total lines changed: -1") ∈ fst (main ["v1"; "v2"] snapshots None).
Proof.
  assert (NoDup (paths stats_v1)) as H1 by decide_by_compute.
  assert (NoDup (paths stats_v2)) as H2 by decide_by_compute.
  destruct (diff_total_is_new_minus_old stats_v1 stats_v2 H1 H2) as [Hsum Hmain].
  split; [exact H1|]. split; [exact H2|]. split; [exact Hsum|].
  rewrite (Hmain "v1" "v2" snapshots None); [|by vm_compute..].
  simpl. repeat constructor.
Defined.

(** C2, as stated, read with any of Python's triple-quote delimiters: it
    fails on a string token in single-quote triple quotes that stands alone
    on its line, which [is_docstring] does not take for a docstring. *)
Lemma is_docstring_any_triple_quote_fails :
  ~ (is_docstring squote_doc_token = true <->
       tok_type squote_doc_token = STRING
       /\ exists d, d ∈ triple_quote_delimiters
            /\ startswith (tok_string squote_doc_token) d = true
            /\ startswith (strip (tok_line squote_doc_token)) d = true).
Proof.
  intros [_ H].
  enough (is_docstring squote_doc_token = true) as Hd by (vm_compute in Hd; discriminate).
  apply H. split; [reflexivity|].
  exists (triple squote). split; [|by vm_compute].
  unfold triple_quote_delimiters. apply list_elem_of_further, list_elem_of_here.
Qed.

(** C2, amended.  [is_docstring] returns [True] exactly when the token is a
    string literal, its text begins with the double-quote triple delimiter
    and its source line, stripped of surrounding whitespace, begins with
    that delimiter too; such a token is dropped from the retained tokens,
    so it counts neither as a token nor towards the covered lines. *)
Theorem is_docstring_iff_dquote (tok : TokenInfo) :
  (is_docstring tok = true <->
     tok_type tok = STRING
     /\ startswith (tok_string tok) (triple dquote) = true
     /\ startswith (strip (tok_line tok)) (triple dquote) = true)
  /\ (is_docstring tok = true ->
      forall toks1 toks2 : list TokenInfo,
        retained (toks1 ++ tok :: toks2) = retained (toks1 ++ toks2)).
Proof.
  split; [apply is_docstring_true|].
  intros Hd toks1 toks2.
  by rewrite !retained_app, retained_cons_docstring.
Qed.

(** C3.  In single-snapshot mode with a non-empty table: with the
    threshold variable reading 100 and a total of 120 lines the run ends in
    the error "OVER 100 LINES"; with 100 and a total of 80 it completes;
    with the sentinel -1, or with the variable not set, it completes
    whatever the total. *)
Theorem threshold_enforcement (args : list string) (fs : string -> directory)
    (table : list FileStat) (text : string) :
  length args <> 2%nat -> gen_stats (fs (base_arg args)) = Ok table -> table <> [] ->
  (py_int text = Ok 100 -> total_lines table = 120 ->
     snd (main args fs (Some text)) = Raise (AssertionError "OVER 100 LINES"))
  /\ (py_int text = Ok 100 -> total_lines table = 80 ->
        snd (main args fs (Some text)) = Ok tt)
  /\ (py_int text = Ok (-1) -> snd (main args fs (Some text)) = Ok tt)
  /\ snd (main args fs None) = Ok tt.
Proof.
  intros Hlen Hg Hne.
  rewrite !(main_single_mode _ _ _ _ Hlen Hg), !report_stats_nonempty by done.
  cbn [snd]. repeat split.
  - intros Ht Htot. by rewrite (check_max_count_set _ _ _ Ht), Htot.
  - intros Ht Htot. by rewrite (check_max_count_set _ _ _ Ht), Htot.
  - intros Ht. by rewrite (check_max_count_set _ _ _ Ht).
Qed.

Lemma threshold_enforcement_witness :
  snd (main ["big"] snapshots (Some "100")) = Raise (AssertionError "OVER 100 LINES")
  /\ snd (main [] snapshots (Some "100")) = Ok tt
  /\ snd (main ["big"] snapshots (Some "-1")) = Ok tt
  /\ snd (main ["big"] snapshots None) = Ok tt.
Proof.
  assert (gen_stats (snapshots (base_arg ["big"])) = Ok [stat "big.py" 120 one]) as Hbig
    by (by vm_compute).
  assert (gen_stats (snapshots (base_arg [])) = Ok [stat "big.py" 80 one]) as Hdot
    by (by vm_compute).
  assert (length ["big"] <> 2%nat) as Hlen1 by (simpl; lia).
  assert (length (@nil string) <> 2%nat) as Hlen0 by (simpl; lia).
  destruct (threshold_enforcement ["big"] snapshots _ "100" Hlen1 Hbig ltac:(discriminate))
    as (Hover & _ & _ & _).
  destruct (threshold_enforcement [] snapshots _ "100" Hlen0 Hdot ltac:(discriminate))
    as (_ & Hunder & _ & _).
  destruct (threshold_enforcement ["big"] snapshots _ "-1" Hlen1 Hbig ltac:(discriminate))
    as (_ & _ & Hoff & Hunset).
  split; [by apply Hover|]. split; [by apply Hunder|]. split; [by apply Hoff|exact Hunset].
Defined.

(** C4.  For stat collections with unique paths, a path that occurs in
    either one appears in the output of [gen_diff] exactly once when its
    line delta or its density delta (a missing side counting as 0 lines
    and density 0.0) is not zero, and not at all when both are zero. *)
Theorem gen_diff_completeness (old new : list FileStat) (p : string) :
  NoDup (paths old) -> NoDup (paths new) ->
  p ∈ paths old \/ p ∈ paths new ->
  length (filter (fun row => d_path row = p) (gen_diff old new)) =
    if negb (line_count (stat_of new p) - line_count (stat_of old p) =? 0)
       || negb (Float.eqb (Float.sub (density (stat_of new p)) (density (stat_of old p)))
                  Float.zero)
    then 1%nat else 0%nat.
Proof.
  intros Ho Hn Hp. rewrite gen_diff_stat_of by done.
  rewrite count_omap_key.
  - rewrite decide_True by (by apply elem_of_diff_keys).
    fold (changed (stat_of old p) (stat_of new p)). by destruct (changed _ _).
  - intros k row Hk. destruct (changed _ _); [|done]. by injection Hk as <-.
  - apply diff_keys_NoDup.
Qed.

Lemma gen_diff_completeness_witness :
  length (filter (fun row => d_path row = "b.py") (gen_diff stats_v1 stats_v2)) = 1%nat
  /\ length (filter (fun row => d_path row = "b.py") (gen_diff stats_v1 stats_v1)) = 0%nat.
Proof.
  assert (NoDup (paths stats_v1)) as H1 by decide_by_compute.
  assert (NoDup (paths stats_v2)) as H2 by decide_by_compute.
  assert ("b.py" ∈ paths stats_v1) as Hb by decide_by_compute.
  split.
  - exact (gen_diff_completeness stats_v1 stats_v2 "b.py" H1 H2 (or_introl Hb)).
  - exact (gen_diff_completeness stats_v1 stats_v1 "b.py" H1 H1 (or_introl Hb)).
Defined.

(** C5.  With unique paths, a row of [new] whose path is not in [old] and
    whose line count or density is not zero yields the diff row with
    [line_delta] the row's line count and [density_delta] its density; a
    row of [old] whose path is not in [new], under the same proviso, yields
    the diff row with new line count 0, [line_delta] minus the row's line
    count, new density 0.0 and [density_delta] = 0.0 - density, which is
    minus the row's density (as floats compare; identically so unless the
    density is the float 0.0). *)
Theorem gen_diff_one_sided (old new : list FileStat) (r : FileStat) :
  NoDup (paths old) -> NoDup (paths new) ->
  line_count r <> 0 \/ Float.eqb (density r) Float.zero = false ->
  (r ∈ new -> path r ∉ paths old ->
     {| d_path := path r; new_line_count := line_count r; line_delta := line_count r;
        new_density := density r; density_delta := density r |} ∈ gen_diff old new)
  /\ (r ∈ old -> path r ∉ paths new ->
      exists row, row ∈ gen_diff old new
        /\ d_path row = path r
        /\ new_line_count row = 0
        /\ line_delta row = - line_count r
        /\ new_density row = Float.zero
        /\ density_delta row = Float.sub Float.zero (density r)
        /\ (Float.is_nan (density r) = false ->
            Float.eqb (density_delta row) (Float.opp (density r)) = true)
        /\ (density r <> Float.zero -> density_delta row = Float.opp (density r))).
Proof.
  intros Ho Hn Hnz. split.
  - intros Hr Hold. by apply gen_diff_added.
  - intros Hr Hnew. eexists. split; [by apply gen_diff_removed|].
    cbn [d_path new_line_count line_delta new_density density_delta].
    repeat split.
    + apply float_sub_zero_l_eqb.
    + apply float_sub_zero_l.
Qed.

Lemma gen_diff_one_sided_witness :
  {| d_path := "c.py"; new_line_count := 4; line_delta := 4;
     new_density := one; density_delta := one |} ∈ gen_diff stats_v1 stats_v3
  /\ exists row, row ∈ gen_diff stats_v1 stats_v3
       /\ d_path row = "b.py" /\ new_line_count row = 0 /\ line_delta row = -3
       /\ new_density row = Float.zero /\ density_delta row = Float.opp one.
Proof.
  assert (NoDup (paths stats_v1)) as H1 by decide_by_compute.
  assert (NoDup (paths stats_v3)) as H3 by decide_by_compute.
  split.
  - apply (gen_diff_one_sided stats_v1 stats_v3 (stat "c.py" 4 one) H1 H3).
    + left. discriminate.
    + apply list_elem_of_further, list_elem_of_here.
    + decide_by_compute.
  - destruct (gen_diff_one_sided stats_v1 stats_v3 (stat "b.py" 3 one) H1 H3) as [_ H].
    { left. discriminate. }
    destruct H as (row & Hrow & Hp & Hn & Hl & Hd & _ & _ & Hdd).
    { apply list_elem_of_further, list_elem_of_here. }
    { decide_by_compute. }
    exists row. repeat split; try done. apply Hdd. discriminate.
Defined.

(** C6.  The diff of a stat collection with itself is empty (densities
    being numbers, as in every stat collection). *)
Theorem gen_diff_same_snapshot (A : list FileStat) :
  Forall (fun r => Float.is_finite (density r) = true) A ->
  gen_diff A A = [].
Proof.
  intros Hfin. rewrite gen_diff_omap. apply omap_all_None. intros k _.
  rewrite diff_row_eq. cbv zeta.
  assert (Float.is_finite (density (default (default_row k) (stats_map A !! k))) = true)
    as Hd.
  { destruct (stats_map A !! k) as [r|] eqn:Hk; [|done].
    apply stats_map_lookup_Some in Hk as [Hr _].
    rewrite Forall_forall in Hfin. by apply Hfin. }
  unfold changed. by rewrite Z.sub_diag, float_sub_diag.
Qed.

Lemma gen_diff_same_snapshot_witness :
  Forall (fun r => Float.is_finite (density r) = true) stats_tree
  /\ gen_diff stats_tree stats_tree = [].
Proof.
  assert (Forall (fun r => Float.is_finite (density r) = true) stats_tree) as H
    by (by repeat constructor).
  split; [exact H|]. exact (gen_diff_same_snapshot stats_tree H).
Defined.

(** C7.  In single-snapshot mode with a non-empty table, [main] prints the
    table, one line per directory group and the grand total; that total is
    the sum of the line counts of the rows of the table (in the order
    printed or not), and it is the sum of the group subtotals.  The groups
    hold the rows' tuples, each exactly once; every tuple sits in the group
    named by the first two slash-separated segments of its path; and no
    group name comes twice. *)
Theorem single_snapshot_totals (args : list string) (fs : string -> directory)
    (env : option string) (table : list FileStat) :
  length args <> 2%nat -> gen_stats (fs (base_arg args)) = Ok table -> table <> [] ->
  let table_sorted := sorted_by_key_desc line_count table in
  let groups := dir_groups table_sorted in
  fst (main args fs env) =
    [StatTable stat_headers table_sorted]
      ++ map group_line groups
      ++ [Line (newline +:+ "total line count: " +:+ str_int (total_lines table))]
  /\ total_lines table = sum_Z (map line_count table_sorted)
  /\ total_lines table = sum_Z (map (fun g => group_total (snd g)) groups)
  /\ concat (map snd groups) ≡ₚ map group_item_of table
  /\ Forall (fun g => snd g <> []
                      /\ Forall (fun it => item_key it = fst g) (snd g)) groups
  /\ NoDup (map fst groups)
  /\ (forall r, item_key (group_item_of r) = join "/" (slice_to 2 (split "/"%char (path r)))).
Proof.
  intros Hlen Hg Hne table_sorted groups.
  assert (table_sorted ≡ₚ table) as Hperm by apply py_sorted_Permutation.
  assert (total_lines table_sorted = total_lines table) as Htot
    by (unfold total_lines; apply sum_Z_Permutation; by rewrite Hperm).
  destruct (dir_groups_spec table_sorted) as (Hsum & Hitems & Hkeys & Hnd).
  rewrite (main_single_mode _ _ _ _ Hlen Hg), report_stats_nonempty by done.
  fold table_sorted in Hsum, Hitems, Hkeys, Hnd |- *.
  fold groups in Hsum, Hitems, Hkeys, Hnd |- *.
  split; [done|]. split; [by rewrite <- Htot|].
  split; [by rewrite Hsum|]. split; [by rewrite Hitems, Hperm|].
  split; [done|]. split; [done|]. by intros [p n d].
Qed.

Lemma single_snapshot_totals_witness :
  fst (main ["tree"] snapshots None) =
    [StatTable stat_headers
       [stat "x/y/c.py" 7 two; stat "x/y/a.py" 5 two; stat "b.py" 3 one; stat "x/z.py" 1 one];
     Line "b.py                           :      3";
     Line "x/y                            :     12";
     Line "x/z.py                         :      1";
     Line (newline +:+ "total line count: 16")]
  /\ 16 = 3 + 12 + 1.
Proof.
  assert (length ["tree"] <> 2%nat) as Hlen by (simpl; lia).
  destruct (single_snapshot_totals ["tree"] snapshots None stats_tree Hlen gen_stats_tree
              ltac:(discriminate)) as (Hout & _ & Hsum & _).
  split.
  - rewrite Hout. by vm_compute.
  - by vm_compute.
Defined.

(** C8.  Every row of the collection [gen_stats] returns has a positive
    line count; the rows are, in order, those of the files whose retained
    tokens cover a line, and a file (of a tree, where relative paths are
    unique) whose retained tokens cover no line has no row. *)
Theorem gen_stats_rows_have_lines (base : directory) (stats : list FileStat) :
  gen_stats base = Ok stats ->
  Forall (fun r => 0 < line_count r) stats
  /\ paths stats = map relpath (List.filter has_lines base)
  /\ (NoDup (map relpath base) ->
      forall (f : source_file) (toks : list TokenInfo),
        f ∈ base -> tokenized f = Ok toks ->
        covered_lines (retained toks) = ∅ -> relpath f ∉ paths stats).
Proof.
  intros [Hpos Hpaths]%gen_stats_Ok. split; [done|]. split; [done|].
  intros Hnd f toks Hf Htok Hcov Hin.
  rewrite Hpaths in Hin. apply list_elem_of_fmap_1 in Hin as (f' & Heq & Hf').
  apply list_elem_of_In, filter_In in Hf' as [Hf' Hlines].
  apply list_elem_of_In in Hf'.
  assert (f = f') as <- by (by apply (NoDup_map_inj relpath base)).
  unfold has_lines in Hlines. rewrite Htok, Hcov in Hlines. done.
Qed.

Lemma gen_stats_rows_have_lines_witness :
  gen_stats v_docs = Ok [stat "a.py" 5 two]
  /\ ("notes.py" ∉ paths [stat "a.py" 5 two])
  /\ ("doc.py" ∉ paths [stat "a.py" 5 two]).
Proof.
  assert (gen_stats v_docs = Ok [stat "a.py" 5 two]) as Hg by (by vm_compute).
  destruct (gen_stats_rows_have_lines v_docs _ Hg) as (_ & _ & Habsent).
  assert (NoDup (map relpath v_docs)) as Hnd by decide_by_compute.
  split; [exact Hg|]. split.
  - apply (Habsent Hnd (py_file "notes.py" [comment_token]) [comment_token]);
      [apply list_elem_of_further, list_elem_of_here|reflexivity|by vm_compute].
  - apply (Habsent Hnd (py_file "doc.py" [dquote_doc_token]) [dquote_doc_token]);
      [do 2 apply list_elem_of_further; apply list_elem_of_here|reflexivity|by vm_compute].
Defined.

(** A file of a scan that returns, whose retained tokens cover a line, has
    its row in the collection. *)
Lemma gen_stats_row_of_file (base : directory) (stats : list FileStat) (f : source_file) :
  gen_stats base = Ok stats -> f ∈ base -> has_lines f = true ->
  exists r, r ∈ stats /\ is_row_of f r.
Proof.
  intros (rows & -> & Hrows & _)%gen_stats_from_rows Hf Hlines. simpl.
  assert (f ∈ List.filter has_lines base) as Hin
    by (apply list_elem_of_In, filter_In; split; [by apply list_elem_of_In|done]).
  apply list_elem_of_lookup in Hin as [i Hi].
  destruct (Forall2_lookup_l _ _ _ _ _ Hrows Hi) as (r & Hr & Hrow).
  exists r. split; [|done]. apply list_elem_of_lookup. by exists i.
Qed.

(** C9.  A token whose text begins with the single-quote triple delimiter
    is never taken for a docstring; when it is a string literal it is
    among the retained tokens of every file that contains it, so it adds
    one to the token count and its lines are covered lines; and in every
    scan that returns, the row [gen_stats] gives for a file that contains
    it is computed from these tokens: its line count is the number of
    lines they cover, the token's lines among them, and its density is
    their number, the token counted, over that line count. *)
Theorem squote_docstring_counted (tok : TokenInfo) :
  startswith (tok_string tok) (triple squote) = true ->
  is_docstring tok = false
  /\ (tok_type tok = STRING ->
      forall toks1 toks2 : list TokenInfo,
        let tokens := retained (toks1 ++ tok :: toks2) in
        tokens = retained toks1 ++ tok :: retained toks2
        /\ length tokens = S (length (retained (toks1 ++ toks2)))
        /\ (forall ln, fst (tok_start tok) <= ln <= fst (tok_end tok) ->
                       ln ∈ covered_lines tokens)
        /\ (fst (tok_start tok) <= fst (tok_end tok) ->
            forall (base : directory) (stats : list FileStat) (f : source_file),
              gen_stats base = Ok stats -> f ∈ base ->
              tokenized f = Ok (toks1 ++ tok :: toks2) ->
              exists r, r ∈ stats
                /\ path r = relpath f
                /\ line_count r = Z.of_nat (size (covered_lines tokens))
                /\ 0 < line_count r
                /\ int_truediv (Z.of_nat (S (length (retained (toks1 ++ toks2)))))
                               (line_count r) = Ok (density r))).
Proof.
  intros Hs. split.
  - unfold is_docstring. by rewrite (startswith_squote_not_dquote _ Hs), andb_false_r.
  - intros Ht toks1 toks2 tokens.
    assert (tokens = retained toks1 ++ tok :: retained toks2) as Heq
      by (unfold tokens; by rewrite retained_app, retained_cons_squote).
    assert (length tokens = S (length (retained (toks1 ++ toks2)))) as Hlen
      by (rewrite Heq, retained_app, !length_app; simpl; lia).
    assert (forall ln, fst (tok_start tok) <= ln <= fst (tok_end tok) ->
                       ln ∈ covered_lines tokens) as Hcov.
    { intros ln Hln. apply (elem_of_covered_lines _ tok); [|done].
      rewrite Heq. set_solver. }
    split; [done|]. split; [done|]. split; [done|].
    intros Hspan base stats f Hg Hf Htok.
    assert (0 < Z.of_nat (size (covered_lines tokens))) as Hpos.
    { assert (size (covered_lines tokens) <> 0%nat); [|lia].
      apply size_non_empty_iff. intros Hempty.
      assert (fst (tok_start tok) ∈ covered_lines tokens) as Hin by (apply Hcov; lia).
      rewrite Hempty in Hin. by apply not_elem_of_empty in Hin. }
    assert (has_lines f = true) as Hlines
      by (unfold has_lines; rewrite Htok; by apply Z.ltb_lt).
    destruct (gen_stats_row_of_file base stats f Hg Hf Hlines)
      as (r & Hr & Hpath & toks & Htoks & Hlc & Hd).
    assert (toks = toks1 ++ tok :: toks2) as -> by congruence.
    fold tokens in Hlc, Hd. exists r.
    split; [done|]. split; [done|]. split; [done|]. split; [by rewrite Hlc|].
    by rewrite <- Hlen.
Qed.

Lemma squote_docstring_counted_witness :
  is_docstring squote_doc_token = false
  /\ length (retained [comment_token; squote_doc_token]) = 1%nat
  /\ 1 ∈ covered_lines (retained [comment_token; squote_doc_token])
  /\ gen_stats [py_file "d.py" [comment_token; squote_doc_token]] = Ok [stat "d.py" 1 one]
  /\ exists r, r ∈ [stat "d.py" 1 one] /\ path r = "d.py" /\ line_count r = 1
       /\ int_truediv 1 (line_count r) = Ok (density r).
Proof.
  destruct (squote_docstring_counted squote_doc_token ltac:(by vm_compute)) as [Hd Hc].
  destruct (Hc eq_refl [comment_token] []) as (_ & Hlen & Hcov & Hrow).
  assert (gen_stats [py_file "d.py" [comment_token; squote_doc_token]]
          = Ok [stat "d.py" 1 one]) as Hg by (by vm_compute).
  split; [exact Hd|]. split; [exact Hlen|].
  split; [apply Hcov; by vm_compute|]. split; [exact Hg|].
  destruct (Hrow ltac:(by vm_compute) _ _ (py_file "d.py" [comment_token; squote_doc_token])
              Hg ltac:(apply list_elem_of_here) eq_refl)
    as (r & Hr & Hpath & Hlc & _ & Hdens).
  exists r. split; [exact Hr|]. split; [exact Hpath|].
  assert (line_count r = 1) as Hone by (rewrite Hlc; by vm_compute).
  split; [exact Hone|exact Hdens].
Defined.

(** C10.  With the threshold variable reading a negative integer other
    than -1, every single-snapshot run with a non-empty table ends in the
    error naming that integer, whatever the total. *)
Theorem negative_threshold_always_fails (args : list string) (fs : string -> directory)
    (table : list FileStat) (text : string) (n : Z) :
  length args <> 2%nat -> gen_stats (fs (base_arg args)) = Ok table -> table <> [] ->
  py_int text = Ok n -> n < 0 -> n <> -1 ->
  snd (main args fs (Some text)) =
    Raise (AssertionError ("OVER " +:+ str_int n +:+ " LINES")).
Proof.
  intros Hlen Hg Hne Ht Hneg Hsent.
  rewrite (main_single_mode _ _ _ _ Hlen Hg), report_stats_nonempty by done.
  cbn [snd]. rewrite (check_max_count_set _ _ _ Ht).
  apply gen_stats_Ok in Hg as [Hpos _].
  assert (0 < total_lines table) as Htot.
  { unfold total_lines. apply sum_Z_pos; [|by destruct table].
    by apply Forall_fmap. }
  apply Z.eqb_neq in Hsent as ->.
  assert ((total_lines table <=? n) = false) as -> by lia.
  done.
Qed.

Lemma negative_threshold_always_fails_witness :
  snd (main ["v1"] snapshots (Some "-2")) = Raise (AssertionError "OVER -2 LINES").
Proof.
  assert (length ["v1"] <> 2%nat) as Hlen by (simpl; lia).
  exact (negative_threshold_always_fails ["v1"] snapshots stats_v1 "-2" (-2)
           Hlen gen_stats_v1 ltac:(discriminate) eq_refl ltac:(lia) ltac:(lia)).
Defined.

(** * Further properties *)

(** ** The statistics collector, row by row *)

Lemma int_truediv_finite (a b : Z) (d : float) :
  int_truediv a b = Ok d -> Float.is_finite d = true.
Proof.
  unfold int_truediv. destruct (b =? 0); [done|].
  destruct (Float.is_finite _) eqn:Hfin; [|done]. by intros [= <-].
Qed.

Lemma gen_stats_density_finite (base : directory) (stats : list FileStat) :
  gen_stats base = Ok stats ->
  Forall (fun r => Float.is_finite (density r) = true) stats.
Proof.
  intros (rows & -> & Hrows & _)%gen_stats_from_rows. simpl.
  induction Hrows as [|f r fs rs (_ & toks & _ & _ & Hd) _ IH]; constructor; [|done].
  by apply int_truediv_finite in Hd.
Qed.

Lemma gen_stats_from_Raise (files : directory) (acc : list FileStat) (e : exn) :
  gen_stats_from acc files = Raise e -> forall acc', gen_stats_from acc' files = Raise e.
Proof.
  revert acc. induction files as [|f files IH]; intros acc; simpl; [done|].
  intros H acc'. unfold gen_stats_file in *.
  destruct (tokenized f) as [toks|e']; simpl in *; [|done].
  destruct (0 <? _); [|by eapply IH].
  destruct (int_truediv _ _); simpl in *; [by eapply IH|done].
Qed.

Lemma gen_stats_from_app (files1 files2 : directory) (acc : list FileStat) :
  gen_stats_from acc (files1 ++ files2) =
    (stats <-- gen_stats_from acc files1 ;; gen_stats_from stats files2).
Proof.
  revert acc. induction files1 as [|f files1 IH]; intros acc; simpl; [done|].
  destruct (gen_stats_file acc f); simpl; [apply IH|done].
Qed.

(** X1.  When [gen_stats] returns, its rows are, in scan order, one per file
    whose retained tokens cover a line: the row carries the file's relative
    path, the number of distinct covered lines, and the quotient of the
    number of retained tokens by that line count. *)
Theorem gen_stats_rows (base : directory) (stats : list FileStat) :
  gen_stats base = Ok stats ->
  Forall2 is_row_of (List.filter has_lines base) stats.
Proof. by intros (rows & -> & Hrows & _)%gen_stats_from_rows. Qed.

Lemma gen_stats_rows_witness :
  gen_stats v_docs = Ok [stat "a.py" 5 two]
  /\ Forall2 is_row_of (List.filter has_lines v_docs) [stat "a.py" 5 two].
Proof.
  assert (gen_stats v_docs = Ok [stat "a.py" 5 two]) as Hg by (by vm_compute).
  split; [exact Hg|]. exact (gen_stats_rows v_docs _ Hg).
Defined.

(** X2.  A file that fails to tokenize aborts the whole scan with its error
    as soon as it is reached: when the files before it scan normally,
    [gen_stats] raises that error whatever follows; and [gen_stats] never
    returns a collection for a tree with a file that does not tokenize. *)
Theorem gen_stats_fails_fast (before after : directory) (f : source_file)
    (e : exn) (stats : list FileStat) :
  tokenized f = Raise e -> gen_stats before = Ok stats ->
  gen_stats (before ++ f :: after) = Raise e
  /\ forall (pre : directory) (out : list FileStat),
       gen_stats (pre ++ f :: after) <> Ok out.
Proof.
  intros Hf Hb. split.
  - unfold gen_stats in *. rewrite gen_stats_from_app, Hb. simpl.
    unfold gen_stats_file. by rewrite Hf.
  - intros pre out (rows & _ & _ & Htok)%gen_stats_from_rows.
    apply Forall_app in Htok as [_ [[toks Ht] _]%Forall_cons].
    congruence.
Qed.

Lemma gen_stats_fails_fast_witness :
  gen_stats (v1 ++ {| relpath := "bad.py"; tokenized := Raise TokenizeError |} :: v2)
    = Raise TokenizeError.
Proof.
  exact (proj1 (gen_stats_fails_fast v1 v2
                  {| relpath := "bad.py"; tokenized := Raise TokenizeError |}
                  TokenizeError stats_v1 eq_refl gen_stats_v1)).
Defined.

(** X3.  A line number is among the covered lines exactly when some token of
    the list spans it, from the row of its start to the row of its end; a
    line that several tokens span is there once. *)
Theorem covered_lines_spec (tokens : list TokenInfo) (ln : Z) :
  ln ∈ covered_lines tokens <->
  exists tok, tok ∈ tokens /\ fst (tok_start tok) <= ln <= fst (tok_end tok).
Proof.
  split.
  - unfold covered_lines. intros Hin%elem_of_list_to_set.
    apply list_elem_of_bind in Hin as (tok & Hln & Htok).
    exists tok. split; [done|].
    unfold token_lines, range in Hln. apply elem_of_seqZ in Hln. lia.
  - intros (tok & Htok & Hln). by apply (elem_of_covered_lines _ tok).
Qed.

(** ** The diff engine: order, symmetry, shadowed rows *)

Lemma diff_row_path (om nm : gmap string FileStat) (k : string) (row : DiffRow) :
  diff_row om nm k = Some row -> d_path row = k.
Proof.
  rewrite diff_row_eq. cbv zeta. destruct (changed _ _); [|done]. by intros [= <-].
Qed.

Lemma omap_paths_Forall (g : string -> option DiffRow) (P : string -> Prop) (ks : list string) :
  (forall k row, g k = Some row -> d_path row = k) ->
  Forall P ks -> Forall P (map d_path (omap g ks)).
Proof.
  intros Hg. induction 1 as [|k ks Hk Hks IH]; csimpl; [constructor|].
  destruct (g k) as [row|] eqn:Hgk; [|done].
  simpl. constructor; [|done]. by rewrite (Hg _ _ Hgk).
Qed.

Lemma omap_paths_sorted (g : string -> option DiffRow) (ks : list string) :
  (forall k row, g k = Some row -> d_path row = k) ->
  StronglySorted String.le ks -> NoDup ks ->
  StronglySorted String.le (map d_path (omap g ks)) /\ NoDup (map d_path (omap g ks)).
Proof.
  intros Hg. induction 1 as [|k ks Hks IH Hk]; intros Hnd; csimpl.
  - split; constructor.
  - apply NoDup_cons in Hnd as [Hnk Hnd]. destruct (IH Hnd) as [IH1 IH2].
    destruct (g k) as [row|] eqn:Hgk; [|done].
    simpl. rewrite (Hg _ _ Hgk). split.
    + constructor; [done|]. by apply omap_paths_Forall.
    + apply NoDup_cons. split; [|done].
      intros Hin. apply Hnk.
      assert (Forall (fun p => p ∈ ks) (map d_path (omap g ks))) as Hall.
      { apply omap_paths_Forall; [done|]. by apply Forall_forall. }
      rewrite Forall_forall in Hall. by apply Hall.
Qed.

Lemma gen_diff_path_order (old new : list FileStat) :
  StronglySorted String.le (map d_path (gen_diff old new))
  /\ NoDup (map d_path (gen_diff old new)).
Proof.
  rewrite gen_diff_omap. apply omap_paths_sorted.
  - apply diff_row_path.
  - apply diff_keys_sorted.
  - apply diff_keys_NoDup.
Qed.

(** X4.  The rows of [gen_diff] come in lexicographic order of their paths,
    no path comes twice, and every path is one of a row of [old] or of
    [new], whatever the two collections are (even with repeated paths in
    them or in any order). *)
Theorem gen_diff_paths_sorted (old new : list FileStat) :
  StronglySorted String.le (map d_path (gen_diff old new))
  /\ NoDup (map d_path (gen_diff old new))
  /\ (forall p, p ∈ map d_path (gen_diff old new) -> p ∈ paths old \/ p ∈ paths new).
Proof.
  destruct (gen_diff_path_order old new) as [Hsorted Hnd].
  split; [done|]. split; [done|].
  intros p (row & -> & Hrow)%list_elem_of_fmap_1.
  rewrite gen_diff_omap in Hrow.
  apply list_elem_of_omap in Hrow as (k & Hk & Hrow).
  apply diff_row_path in Hrow as ->. by apply elem_of_diff_keys.
Qed.

Lemma float_round_sign_eqb_zero (s : bool) (m : positive) (e : Z) :
  Float.eqb (binary_round Float.prec Float.emax s m e) Float.zero
  = Float.eqb (binary_round Float.prec Float.emax (negb s) m e) Float.zero.
Proof.
  unfold binary_round, binary_round_aux.
  destruct (shl_align _ _ _) as [mz ez].
  destruct (shr_fexp _ _ _ _ _) as [mrs e'].
  destruct (shr_fexp _ _ _ _ _) as [mrs' e''].
  destruct (shr_m mrs') as [|p|p]; [by destruct s|..|done].
  destruct (e'' <=? _); by destruct s.
Qed.

Lemma float_normalize_opp_eqb_zero (z e : Z) :
  Float.eqb (binary_normalize Float.prec Float.emax z e false) Float.zero
  = Float.eqb (binary_normalize Float.prec Float.emax (- z) e false) Float.zero.
Proof.
  destruct z as [|p|p]; simpl; [done|..].
  - apply (float_round_sign_eqb_zero false).
  - apply (float_round_sign_eqb_zero true).
Qed.

(** [a - b] is zero exactly when [b - a] is. *)
Lemma float_sub_swap_eqb_zero (a b : float) :
  Float.eqb (Float.sub a b) Float.zero = Float.eqb (Float.sub b a) Float.zero.
Proof.
  destruct a as [sa|sa| |sa ma ea], b as [sb|sb| |sb mb eb];
    try (by destruct sa, sb); try (by destruct sa); try (by destruct sb); try done.
  unfold Float.sub, SFsub. rewrite (Z.min_comm eb ea).
  rewrite float_normalize_opp_eqb_zero. f_equal. f_equal. lia.
Qed.

Lemma changed_swap (o n : FileStat) : changed n o = changed o n.
Proof.
  unfold changed. rewrite float_sub_swap_eqb_zero. f_equal. f_equal.
  apply eq_true_iff_eq. rewrite !Z.eqb_eq. lia.
Qed.

Lemma diff_keys_swap (old new : list FileStat) : diff_keys new old = diff_keys old new.
Proof. unfold diff_keys. by rewrite (union_comm_L (dom (stats_map new))). Qed.

(** X5.  Swapping the two collections gives the rows of the same paths in
    the same order, with the line deltas negated; the line count each row
    of the one diff shows is the other side's count of the other diff. *)
Theorem gen_diff_swap (old new : list FileStat) :
  map d_path (gen_diff new old) = map d_path (gen_diff old new)
  /\ map line_delta (gen_diff new old) = map Z.opp (map line_delta (gen_diff old new))
  /\ map new_line_count (gen_diff new old)
     = map (fun row => new_line_count row - line_delta row) (gen_diff old new).
Proof.
  rewrite !gen_diff_omap, diff_keys_swap.
  induction (diff_keys old new) as [|k ks (IH1 & IH2 & IH3)]; [done|]. csimpl.
  rewrite !diff_row_eq. cbv zeta. rewrite (changed_swap _ _).
  destruct (changed _ _); [|done]. simpl.
  rewrite IH1, IH2, IH3. repeat split; f_equal; lia.
Qed.

Lemma stats_map_foldl (l : list FileStat) (m : gmap string FileStat) (p : string) :
  foldl (fun m row => <[path row := row]> m) m l !! p
  = match stats_map l !! p with Some r => Some r | None => m !! p end.
Proof.
  induction l as [|x l IH] using rev_ind; [by rewrite stats_map_nil, lookup_empty|].
  rewrite foldl_app, stats_map_snoc. simpl.
  destruct (decide (path x = p)) as [<-|Hne].
  - by rewrite !lookup_insert_eq.
  - by rewrite !lookup_insert_ne.
Qed.

Lemma stats_map_cons_shadowed (r : FileStat) (l : list FileStat) :
  path r ∈ paths l -> stats_map (r :: l) = stats_map l.
Proof.
  intros Hin. apply map_eq. intros p.
  unfold stats_map at 1. simpl. rewrite stats_map_foldl.
  destruct (stats_map l !! p) as [x|] eqn:Hl; [done|].
  apply stats_map_lookup_None in Hl.
  rewrite lookup_insert_ne; [by rewrite lookup_empty|]. by intros <-.
Qed.

(** X6.  A row whose path comes again later in its collection is ignored:
    the dictionary keeps the later row, so the diff is that of the
    collection without the earlier row, on either side. *)
Theorem gen_diff_shadowed_row (r : FileStat) (l other : list FileStat) :
  path r ∈ paths l ->
  gen_diff (r :: l) other = gen_diff l other
  /\ gen_diff other (r :: l) = gen_diff other l.
Proof.
  intros Hin. unfold gen_diff. cbv zeta.
  by rewrite (stats_map_cons_shadowed _ _ Hin).
Qed.

Lemma gen_diff_shadowed_row_witness :
  gen_diff (stat "a.py" 99 one :: stats_v1) stats_v2 = gen_diff stats_v1 stats_v2
  /\ gen_diff stats_v1 (stat "a.py" 99 one :: stats_v2) = gen_diff stats_v1 stats_v2.
Proof.
  split.
  - apply (gen_diff_shadowed_row (stat "a.py" 99 one) stats_v1 stats_v2).
    apply list_elem_of_here.
  - apply (gen_diff_shadowed_row (stat "a.py" 99 one) stats_v2 stats_v1).
    apply list_elem_of_here.
Defined.

Lemma default_lookup_pos (l : list FileStat) (k : string) :
  Forall (fun r => 0 < line_count r) l ->
  0 <= line_count (default (default_row k) (stats_map l !! k))
  /\ (line_count (default (default_row k) (stats_map l !! k)) = 0 <-> k ∉ paths l).
Proof.
  intros Hpos. destruct (stats_map l !! k) as [r|] eqn:Hl; simpl.
  - assert (k ∈ paths l) as Hin.
    { destruct (decide (k ∈ paths l)) as [|Hn]; [done|].
      apply stats_map_lookup_None in Hn. congruence. }
    apply stats_map_lookup_Some in Hl as [Hr _].
    rewrite Forall_forall in Hpos. specialize (Hpos _ Hr).
    split; [lia|]. split; [lia|done].
  - apply stats_map_lookup_None in Hl. split; [lia|]. done.
Qed.

(** X7.  In the diff of two collections whose rows all have a positive line
    count (as every scan's have), each row names a path of one of the two;
    the line count it shows and the old count behind it (shown count minus
    delta) are not negative; the shown count is 0 exactly for a path that
    is not in the new collection, the old count is 0 exactly for a path
    that is not in the old one, and in both cases the delta is not zero. *)
Theorem gen_diff_row_invariants (old new : list FileStat) (row : DiffRow) :
  Forall (fun r => 0 < line_count r) old -> Forall (fun r => 0 < line_count r) new ->
  row ∈ gen_diff old new ->
  (d_path row ∈ paths old \/ d_path row ∈ paths new)
  /\ 0 <= new_line_count row
  /\ 0 <= new_line_count row - line_delta row
  /\ (new_line_count row = 0 <-> d_path row ∉ paths new)
  /\ (new_line_count row - line_delta row = 0 <-> d_path row ∉ paths old)
  /\ (d_path row ∉ paths new -> line_delta row < 0)
  /\ (d_path row ∉ paths old -> 0 < line_delta row).
Proof.
  intros Ho Hn. rewrite gen_diff_omap.
  intros (k & Hk & Hrow)%list_elem_of_omap.
  apply elem_of_diff_keys in Hk.
  rewrite diff_row_eq in Hrow. cbv zeta in Hrow.
  destruct (changed _ _); [|done]. injection Hrow as <-.
  unfold delta_row. cbn [d_path new_line_count line_delta].
  destruct (default_lookup_pos old k Ho) as [Ho1 Ho2].
  destruct (default_lookup_pos new k Hn) as [Hn1 Hn2].
  split; [done|]. split; [done|]. split; [lia|]. split; [done|].
  split; [rewrite <- Ho2; lia|]. split.
  - intros Hnew. assert (k ∈ paths old) as Hold by tauto.
    apply Hn2 in Hnew. assert (line_count (default (default_row k) (stats_map old !! k)) <> 0)
      by (rewrite Ho2; tauto). lia.
  - intros Hold. assert (k ∈ paths new) as Hnew by tauto.
    apply Ho2 in Hold. assert (line_count (default (default_row k) (stats_map new !! k)) <> 0)
      by (rewrite Hn2; tauto). lia.
Qed.

Lemma gen_diff_row_invariants_witness :
  let row := {| d_path := "b.py"; new_line_count := 0; line_delta := -3;
                new_density := Float.zero; density_delta := Float.opp one |} in
  0 <= new_line_count row - line_delta row /\ line_delta row < 0.
Proof.
  intros row.
  assert (Forall (fun r => 0 < line_count r) stats_v1) as H1 by (by repeat constructor).
  assert (Forall (fun r => 0 < line_count r) stats_v2) as H2 by (by repeat constructor).
  assert (row ∈ gen_diff stats_v1 stats_v2) as Hrow
    by (rewrite gen_diff_v1_v2; apply list_elem_of_further, list_elem_of_here).
  destruct (gen_diff_row_invariants stats_v1 stats_v2 row H1 H2 Hrow)
    as (_ & _ & Hold & _ & _ & Hdel & _).
  split; [exact Hold|]. apply Hdel. decide_by_compute.
Defined.

(** X8.  For collections with unique paths whose rows have positive line
    counts: when [gen_diff] returns no row, the two collections have the
    same paths, every path has the same line count on both sides, and the
    totals agree. *)
Theorem gen_diff_empty_same_lines (old new : list FileStat) :
  NoDup (paths old) -> NoDup (paths new) ->
  Forall (fun r => 0 < line_count r) old -> Forall (fun r => 0 < line_count r) new ->
  gen_diff old new = [] ->
  (forall p, p ∈ paths old <-> p ∈ paths new)
  /\ (forall p, line_count (stat_of old p) = line_count (stat_of new p))
  /\ total_lines old = total_lines new.
Proof.
  intros Hndo Hndn Ho Hn Hnil.
  assert (forall p, line_count (stat_of old p) = line_count (stat_of new p)) as Hsame.
  { intros p. destruct (decide (p ∈ diff_keys old new)) as [Hk|Hk].
    - rewrite gen_diff_stat_of in Hnil by done.
      destruct (changed (stat_of old p) (stat_of new p)) eqn:Hc.
      + assert (delta_row p (stat_of old p) (stat_of new p) ∈ @nil DiffRow) as Hin.
        { rewrite <- Hnil. apply list_elem_of_omap. exists p. by rewrite Hc. }
        by apply elem_of_nil in Hin.
      + unfold changed in Hc. apply orb_false_iff in Hc as [Hc _].
        apply negb_false_iff, Z.eqb_eq in Hc. lia.
    - rewrite elem_of_diff_keys in Hk.
      rewrite !stat_of_missing by tauto. done. }
  assert (forall l p, NoDup (paths l) -> Forall (fun r => 0 < line_count r) l ->
            (line_count (stat_of l p) = 0 <-> p ∉ paths l)) as Hzero.
  { intros l p Hnd Hpos. rewrite <- stats_map_find by done.
    apply default_lookup_pos. done. }
  split; [|split; [done|]].
  - intros p. pose proof (Hzero old p Hndo Ho). pose proof (Hzero new p Hndn Hn).
    specialize (Hsame p).
    destruct (decide (p ∈ paths old)), (decide (p ∈ paths new)); try tauto.
    + assert (line_count (stat_of old p) = 0) by (rewrite Hsame; tauto). tauto.
    + assert (line_count (stat_of new p) = 0) by (rewrite <- Hsame; tauto). tauto.
  - pose proof (gen_diff_sum_line_delta old new Hndo Hndn) as Hsum.
    rewrite Hnil in Hsum. cbn in Hsum. lia.
Qed.

Lemma gen_diff_empty_same_lines_witness :
  gen_diff stats_v1 (reverse stats_v1) = []
  /\ total_lines stats_v1 = total_lines (reverse stats_v1).
Proof.
  assert (gen_diff stats_v1 (reverse stats_v1) = []) as Hnil by (by vm_compute).
  split; [exact Hnil|].
  apply (gen_diff_empty_same_lines stats_v1 (reverse stats_v1)); try exact Hnil.
  - decide_by_compute.
  - decide_by_compute.
  - by repeat constructor.
  - by repeat constructor.
Defined.

Lemma gen_diff_diag (A : list FileStat) :
  Forall (fun r => Float.is_finite (density r) = true) A -> gen_diff A A = [].
Proof.
  intros Hfin. rewrite gen_diff_omap. apply omap_all_None. intros k _.
  rewrite diff_row_eq. cbv zeta.
  destruct (stats_map A !! k) as [r|] eqn:Hk; simpl.
  - apply stats_map_lookup_Some in Hk as [Hr _].
    rewrite Forall_forall in Hfin. specialize (Hfin _ Hr).
    unfold changed. by rewrite Z.sub_diag, float_sub_diag.
  - done.
Qed.

(** X9.  Diff mode with the same tree on both sides: when the scan succeeds,
    [main] prints the no-changes message and nothing else, and ends
    normally, whatever the tree holds and whatever the threshold variable
    says. *)
Theorem main_same_tree (a : string) (fs : string -> directory) (env : option string)
    (stats : list FileStat) :
  gen_stats (fs a) = Ok stats ->
  main [a; a] fs env = ([no_changes], Ok tt).
Proof.
  intros Hg. rewrite (main_diff_mode _ _ _ _ _ _ Hg Hg).
  by rewrite gen_diff_diag by (by apply gen_stats_density_finite in Hg).
Qed.

Lemma main_same_tree_witness :
  main ["tree"; "tree"] snapshots (Some "0") = ([no_changes], Ok tt).
Proof. exact (main_same_tree "tree" snapshots (Some "0") stats_tree gen_stats_tree). Defined.

(** ** The reporter: threshold, empty scans, arguments, failures *)

Lemma gen_stats_from_no_lines (files : directory) (acc : list FileStat) :
  Forall (fun f => exists toks, tokenized f = Ok toks
                                /\ covered_lines (retained toks) = ∅) files ->
  gen_stats_from acc files = Ok acc.
Proof.
  induction 1 as [|f files (toks & Ht & Hc) _ IH]; simpl; [done|].
  unfold gen_stats_file. rewrite Ht. simpl. rewrite Hc. simpl. exact IH.
Qed.

Lemma gen_stats_Raise_of_file (base : directory) (f : source_file) (e : exn) :
  f ∈ base -> tokenized f = Raise e -> exists e', gen_stats base = Raise e'.
Proof.
  intros Hf He. destruct (gen_stats base) as [stats|e'] eqn:Hg; [|by exists e'].
  apply gen_stats_from_rows in Hg as (_ & _ & _ & Htok).
  rewrite Forall_forall in Htok. destruct (Htok _ Hf) as [toks Ht]. congruence.
Qed.

(** X10.  In single-snapshot mode with a non-empty table the run ends
    normally exactly when the threshold variable reads as an integer that
    is -1 or at least the total: a total equal to the threshold passes.
    The report printed is the same whatever the variable says. *)
Theorem threshold_exact (args : list string) (fs : string -> directory)
    (table : list FileStat) (text : string) :
  length args <> 2%nat -> gen_stats (fs (base_arg args)) = Ok table -> table <> [] ->
  (snd (main args fs (Some text)) = Ok tt <->
     exists n, py_int text = Ok n /\ (n = -1 \/ total_lines table <= n))
  /\ fst (main args fs (Some text)) = fst (main args fs None).
Proof.
  intros Hlen Hg Hne.
  rewrite !(main_single_mode _ _ _ _ Hlen Hg), !report_stats_nonempty by done.
  cbn [fst snd]. split; [|done].
  unfold check_max_count. cbn [default from_option id].
  destruct (py_int text) as [n|e]; simpl.
  - destruct (n =? -1) eqn:H1; simpl.
    + apply Z.eqb_eq in H1. split; [|done]. intros _. exists n. auto.
    + apply Z.eqb_neq in H1. destruct (total_lines table <=? n) eqn:H2.
      * apply Z.leb_le in H2. split; [|done]. intros _. exists n. auto.
      * apply Z.leb_gt in H2. split; [done|].
        intros (n' & [= <-] & [?|?]); lia.
  - split; [done|]. by intros (n & ? & _).
Qed.

Lemma threshold_exact_witness :
  snd (main ["big"] snapshots (Some "120")) = Ok tt
  /\ snd (main ["big"] snapshots (Some "119")) <> Ok tt.
Proof.
  assert (gen_stats (snapshots (base_arg ["big"])) = Ok [stat "big.py" 120 one]) as Hbig
    by (by vm_compute).
  assert (length ["big"] <> 2%nat) as Hlen by (simpl; lia).
  destruct (threshold_exact ["big"] snapshots _ "120" Hlen Hbig ltac:(discriminate))
    as [H120 _].
  destruct (threshold_exact ["big"] snapshots _ "119" Hlen Hbig ltac:(discriminate))
    as [H119 _].
  split.
  - apply H120. exists 120. split; [reflexivity|]. right. by vm_compute.
  - intros (n & Hn & Hle)%H119. injection Hn as <-.
    destruct Hle as [Hle|Hle]; [discriminate|]. vm_compute in Hle. by apply Hle.
Defined.

(** X11.  A scan in which every file tokenizes and none has a counted line
    gives an empty collection; single-snapshot mode then prints the
    no-changes message only and ends normally, without reading the
    threshold variable: whatever its text, even one that is no integer. *)
Theorem main_empty_scan (args : list string) (fs : string -> directory)
    (env : option string) :
  length args <> 2%nat ->
  Forall (fun f => exists toks, tokenized f = Ok toks
                                /\ covered_lines (retained toks) = ∅)
         (fs (base_arg args)) ->
  gen_stats (fs (base_arg args)) = Ok []
  /\ main args fs env = ([no_changes], Ok tt).
Proof.
  intros Hlen Hfiles.
  assert (gen_stats (fs (base_arg args)) = Ok []) as Hg
    by (by apply gen_stats_from_no_lines).
  split; [done|]. by rewrite (main_single_mode _ _ _ _ Hlen Hg).
Qed.

Lemma main_empty_scan_witness :
  main ["nowhere"] snapshots (Some "not a number") = ([no_changes], Ok tt)
  /\ main [] (fun _ => [py_file "doc.py" [dquote_doc_token; comment_token]]) (Some "0")
     = ([no_changes], Ok tt).
Proof.
  split.
  - apply (main_empty_scan ["nowhere"] snapshots (Some "not a number")).
    + simpl. lia.
    + constructor.
  - apply (main_empty_scan [] (fun _ => [py_file "doc.py" [dquote_doc_token; comment_token]])
             (Some "0")).
    + simpl. lia.
    + constructor; [|constructor].
      exists [dquote_doc_token; comment_token]. split; [reflexivity|]. by vm_compute.
Defined.

(** X12.  Any number of arguments other than two runs single-snapshot mode
    on the first argument, or on "." when there is none: further arguments
    are ignored. *)
Theorem main_other_arg_counts (args : list string) (fs : string -> directory)
    (env : option string) :
  length args <> 2%nat ->
  main args fs env = main [base_arg args] fs env.
Proof.
  intros Hlen. by destruct args as [|a [|b [|c args]]].
Qed.

Lemma main_other_arg_counts_witness :
  main ["tree"; "v1"; "v2"] snapshots None = main ["tree"] snapshots None
  /\ main [] snapshots None = main ["."] snapshots None.
Proof.
  split.
  - apply (main_other_arg_counts ["tree"; "v1"; "v2"] snapshots None). simpl. lia.
  - apply (main_other_arg_counts [] snapshots None). simpl. lia.
Defined.

(** X13.  When a file of a scanned tree fails to tokenize, [main] prints
    nothing and ends with an exception, in single-snapshot mode and, for
    either of the two trees, in diff mode. *)
Theorem main_scan_failure (fs : string -> directory) (env : option string)
    (f : source_file) (e : exn) :
  tokenized f = Raise e ->
  (forall args, length args <> 2%nat -> f ∈ fs (base_arg args) ->
     exists e', main args fs env = ([], Raise e'))
  /\ (forall o n, f ∈ fs o \/ f ∈ fs n ->
        exists e', main [o; n] fs env = ([], Raise e')).
Proof.
  intros He. split.
  - intros args Hlen Hf.
    destruct (gen_stats_Raise_of_file _ _ _ Hf He) as [e' Hg].
    exists e'. unfold main.
    destruct args as [|a [|b [|c args]]]; simpl in *; try done; by rewrite Hg.
  - intros o n Hf. unfold main.
    destruct (gen_stats (fs o)) as [old|e1] eqn:Ho; [|by exists e1].
    destruct (gen_stats (fs n)) as [new|e2] eqn:Hn; [|by exists e2].
    destruct Hf as [Hf|Hf];
      destruct (gen_stats_Raise_of_file _ _ _ Hf He) as [e' Hg]; congruence.
Qed.

Lemma main_scan_failure_witness :
  exists e', main ["v1"; "broken"]
               (fun p => if String.eqb p "broken"
                         then [{| relpath := "bad.py"; tokenized := Raise TokenizeError |}]
                         else v1) None = ([], Raise e').
Proof.
  apply (main_scan_failure _ None {| relpath := "bad.py"; tokenized := Raise TokenizeError |}
           TokenizeError eq_refl).
  right. apply list_elem_of_here.
Defined.

(** ** The reporter: order of the printed rows *)

Lemma insert_sorted_desc_filter {A} (key : A -> Z) (k : Z) (x : A) (l : list A) :
  filter (fun r => key r = k) (insert_sorted (fun a b => key b <? key a) x l)
  = filter (fun r => key r = k) (x :: l).
Proof.
  induction l as [|y l IH]; simpl; [done|].
  destruct (key x <? key y) eqn:Hlt; [|done].
  apply Z.ltb_lt in Hlt.
  rewrite (filter_cons _ y), IH, !filter_cons.
  repeat case_decide; try done; lia.
Qed.

(** Rows of equal key keep the order they had. *)
Lemma sorted_by_key_desc_stable {A} (key : A -> Z) (k : Z) (l : list A) :
  filter (fun r => key r = k) (sorted_by_key_desc key l) = filter (fun r => key r = k) l.
Proof.
  unfold sorted_by_key_desc. induction l as [|x l IH]; simpl; [done|].
  by rewrite insert_sorted_desc_filter, !filter_cons, IH.
Qed.

Lemma StronglySorted_fmap_filter {A B} (R : relation B) (f : A -> B) (P : A -> Prop)
    `{!forall x, Decision (P x)} (l : list A) :
  StronglySorted R (map f l) -> StronglySorted R (map f (filter P l)).
Proof.
  induction l as [|x l IH]; simpl; [done|].
  intros [Hl Hx]%StronglySorted_inv. rewrite filter_cons.
  case_decide; [|by apply IH]. simpl. constructor; [by apply IH|].
  rewrite Forall_forall in Hx |- *. intros y (z & -> & Hz)%list_elem_of_fmap_1.
  apply Hx, list_elem_of_fmap_2. by apply list_elem_of_filter in Hz as [_ Hz].
Qed.

(** X14.  The table [main] prints in single-snapshot mode holds the rows of
    the scan, each once, by decreasing line count, rows of equal line count
    in scan order. *)
Theorem stat_table_order (args : list string) (fs : string -> directory)
    (env : option string) (table : list FileStat)
    (headers : list string) (rows : list FileStat) :
  length args <> 2%nat -> gen_stats (fs (base_arg args)) = Ok table ->
  StatTable headers rows ∈ fst (main args fs env) ->
  headers = stat_headers
  /\ rows ≡ₚ table
  /\ StronglySorted (fun a b => line_count b <= line_count a) rows
  /\ forall k, filter (fun r => line_count r = k) rows
               = filter (fun r => line_count r = k) table.
Proof.
  intros Hlen Hg. rewrite (main_single_mode _ _ _ _ Hlen Hg).
  destruct (decide (table = [])) as [->|Hne].
  - simpl. intros Hin%list_elem_of_singleton. discriminate.
  - rewrite report_stats_nonempty by done. cbn [fst].
    rewrite elem_of_app, list_elem_of_singleton, elem_of_app, list_elem_of_singleton.
    intros [[= -> ->]|[Hin|[=]]].
    + split; [done|]. split; [apply py_sorted_Permutation|].
      split; [apply sorted_by_key_desc_sorted|].
      intros k. apply sorted_by_key_desc_stable.
    + apply list_elem_of_fmap_1 in Hin as (g & [=] & _).
Qed.

Lemma stat_table_order_witness :
  exists rows, StatTable stat_headers rows ∈ fst (main ["tree"] snapshots None)
    /\ rows ≡ₚ stats_tree
    /\ StronglySorted (fun a b => line_count b <= line_count a) rows.
Proof.
  exists (sorted_by_key_desc line_count stats_tree).
  assert (StatTable stat_headers (sorted_by_key_desc line_count stats_tree)
            ∈ fst (main ["tree"] snapshots None)) as Hin
    by (vm_compute; apply list_elem_of_here).
  assert (length ["tree"] <> 2%nat) as Hlen by (simpl; lia).
  destruct (stat_table_order ["tree"] snapshots None stats_tree _ _ Hlen gen_stats_tree Hin)
    as (_ & Hperm & Hsorted & _).
  split; [exact Hin|]. split; [exact Hperm|exact Hsorted].
Defined.

(** X15.  The table [main] prints in diff mode holds the rows of [gen_diff],
    each once, by decreasing new line count; rows of equal new line count
    come in lexicographic order of their paths. *)
Theorem diff_table_order (o n : string) (fs : string -> directory)
    (env : option string) (old new : list FileStat)
    (headers : list string) (rows : list DiffRow) :
  gen_stats (fs o) = Ok old -> gen_stats (fs n) = Ok new ->
  DiffTable headers rows ∈ fst (main [o; n] fs env) ->
  headers = diff_headers
  /\ rows ≡ₚ gen_diff old new
  /\ StronglySorted (fun a b => new_line_count b <= new_line_count a) rows
  /\ forall k, StronglySorted String.le
                 (map d_path (filter (fun r => new_line_count r = k) rows)).
Proof.
  intros Ho Hn. rewrite (main_diff_mode _ _ _ _ _ _ Ho Hn).
  destruct (decide (gen_diff old new = [])) as [->|Hne].
  - simpl. intros Hin%list_elem_of_singleton. discriminate.
  - rewrite report_diff_nonempty by done. cbn [fst].
    rewrite !elem_of_cons.
    intros [[=]|[[=]|[[= -> ->]|[[=]|[[=]|Hin%elem_of_nil]]]]]; [|done].
    split; [done|]. split; [apply py_sorted_Permutation|].
    split; [apply sorted_by_key_desc_sorted|].
    intros k. rewrite sorted_by_key_desc_stable.
    apply StronglySorted_fmap_filter, gen_diff_path_order.
Qed.

Lemma diff_table_order_witness :
  exists rows, DiffTable diff_headers rows ∈ fst (main ["v1"; "v3"] snapshots None)
    /\ rows ≡ₚ gen_diff stats_v1 stats_v3
    /\ StronglySorted (fun a b => new_line_count b <= new_line_count a) rows.
Proof.
  exists (sorted_by_key_desc new_line_count (gen_diff stats_v1 stats_v3)).
  assert (DiffTable diff_headers (sorted_by_key_desc new_line_count (gen_diff stats_v1 stats_v3))
            ∈ fst (main ["v1"; "v3"] snapshots None)) as Hin
    by (vm_compute; do 2 apply list_elem_of_further; apply list_elem_of_here).
  destruct (diff_table_order "v1" "v3" snapshots None stats_v1 stats_v3 _ _
              gen_stats_v1 gen_stats_v3 Hin) as (_ & Hperm & Hsorted & _).
  split; [exact Hin|]. split; [exact Hperm|exact Hsorted].
Defined.

(** ** The directory summary *)

Lemma filter_all {A} (P : A -> Prop) `{!forall x, Decision (P x)} (l : list A) :
  Forall P l -> filter P l = l.
Proof.
  induction 1 as [|x l Hx _ IH]; [done|]. by rewrite filter_cons_True, IH.
Qed.

Lemma filter_none {A} (P : A -> Prop) `{!forall x, Decision (P x)} (l : list A) :
  Forall (fun x => ~ P x) l -> filter P l = [].
Proof.
  induction 1 as [|x l Hx _ IH]; [done|]. by rewrite filter_cons_False.
Qed.

(** In a list of groups with distinct keys, each holding items of its own
    key, a group is what its key selects from all the items. *)
Lemma groups_filter {A} (key : A -> string) (groups : list (string * list A))
    (k : string) (g : list A) :
  Forall (fun g => Forall (fun x => key x = fst g) (snd g)) groups ->
  NoDup (map fst groups) -> (k, g) ∈ groups ->
  filter (fun x => key x = k) (concat (map snd groups)) = g.
Proof.
  induction 1 as [|[k1 g1] groups Hg1 Hgroups IH]; simpl.
  - by intros _ ?%elem_of_nil.
  - intros [Hk1 Hnd]%NoDup_cons Hin. rewrite filter_app. simpl in Hg1.
    apply elem_of_cons in Hin as [[= -> ->]|Hin].
    + rewrite filter_all by done.
      rewrite filter_none; [by rewrite app_nil_r|].
      apply Forall_forall. intros x Hx%list_elem_of_In%in_concat Hkey.
      destruct Hx as (g' & Hg' & Hx). apply in_map_iff in Hg' as ([k' g''] & <- & Hin').
      apply list_elem_of_In in Hin'. rewrite Forall_forall in Hgroups.
      pose proof (Hgroups _ Hin') as Hall. rewrite Forall_forall in Hall. simpl in *.
      apply list_elem_of_In in Hx. rewrite (Hall _ Hx) in Hkey.
      apply Hk1. apply list_elem_of_fmap. by exists (k', g'').
    + rewrite (IH Hnd Hin). rewrite filter_none; [done|].
      eapply Forall_impl; [exact Hg1|]. intros x Hx1 Hx.
      apply Hk1. apply list_elem_of_fmap. exists (k, g). split; [simpl; congruence|done].
Qed.

Lemma filter_fmap_key (k : string) (table : list FileStat) :
  filter (fun it => item_key it = k) (map group_item_of table)
  = map group_item_of (rows_under k table).
Proof.
  unfold rows_under. induction table as [|r table IH]; [done|]. simpl.
  rewrite !filter_cons. change (item_key (group_item_of r)) with (group_key (path r)).
  case_decide; simpl; by rewrite IH.
Qed.

Lemma groupby_keys_sorted {A} (key : A -> string) (l : list A) :
  StronglySorted (fun a b => String.le (key a) (key b)) l ->
  StronglySorted String.le (map fst (groupby key l)).
Proof.
  induction 1 as [|x l Hl IH Hx]; [constructor|].
  destruct (groupby_cons key x l) as (g & gs & -> & [(H & -> & ->)|[H|(-> & -> & _)]]).
  - simpl. by repeat constructor.
  - by rewrite H in IH.
  - simpl. constructor; [done|].
    apply Forall_forall. intros k Hk%groupby_fst_elem.
    apply list_elem_of_fmap_1 in Hk as (y & -> & Hy).
    rewrite Forall_forall in Hx. by apply Hx.
Qed.

(** In the directory summary of a table, the items of a group are the
    tuples of the rows whose path has the group's name as its first two
    segments, so the subtotal of a name is the sum of the line counts of
    exactly those rows; and the name of every row is a group. *)
Lemma dir_group_subtotal (table : list FileStat) :
  (forall g, g ∈ dir_groups table ->
     snd g ≡ₚ map group_item_of (rows_under (fst g) table)
     /\ group_total (snd g) = total_lines (rows_under (fst g) table)
     /\ rows_under (fst g) table <> [])
  /\ (forall r, r ∈ table -> group_key (path r) ∈ map fst (dir_groups table)).
Proof.
  destruct (dir_groups_spec table) as (_ & Hitems & Hkeys & Hnd). cbv zeta in *.
  assert (forall g, g ∈ dir_groups table ->
            snd g ≡ₚ map group_item_of (rows_under (fst g) table)) as Hgroup.
  { intros [k g] Hg. simpl.
    rewrite <- filter_fmap_key, <- Hitems.
    rewrite (groups_filter item_key (dir_groups table) k g); [done| |done..].
    eapply Forall_impl; [exact Hkeys|]. by intros ? [_ ?]. }
  split.
  - intros g Hg. pose proof (Hgroup g Hg) as Hperm. split; [done|]. split.
    + unfold group_total, total_lines.
      rewrite (sum_Z_Permutation (map item_lines (snd g))
                 (map item_lines (map group_item_of (rows_under (fst g) table))))
        by (by apply fmap_Permutation).
      by rewrite map_map.
    + intros Hnil. rewrite Hnil in Hperm. apply Permutation_nil_r in Hperm.
      rewrite Forall_forall in Hkeys. by destruct (Hkeys _ Hg).
  - intros r Hr.
    assert (group_item_of r ∈ concat (map snd (dir_groups table))) as Hin
      by (rewrite Hitems; by apply list_elem_of_fmap_2).
    apply list_elem_of_In, in_concat in Hin as (g' & Hg' & Hin).
    apply in_map_iff in Hg' as (g & <- & Hg). apply list_elem_of_In in Hg.
    rewrite Forall_forall in Hkeys. destruct (Hkeys _ Hg) as [_ Hall].
    rewrite Forall_forall in Hall. apply list_elem_of_In in Hin.
    change (group_key (path r)) with (item_key (group_item_of r)).
    rewrite (Hall _ Hin). by apply list_elem_of_fmap_2.
Qed.

(** The groups of the directory summary come in lexicographic order of
    their names. *)
Lemma dir_groups_sorted (table : list FileStat) :
  StronglySorted String.le (map fst (dir_groups table)).
Proof.
  unfold dir_groups. apply groupby_keys_sorted.
  apply (@py_sorted_StronglySorted _ _ item_key_le_trans).
  - intros x y. apply group_item_lt_le.
  - intros x y. apply group_item_not_lt_le.
Qed.

(** X16.  In single-snapshot mode with a non-empty table, [main] prints,
    between the table and the grand total, one line per directory name:
    the names are the first-two-segment prefixes of the rows' paths, each
    once, in lexicographic order, and each line shows the sum of the line
    counts of the rows under its name. *)
Theorem main_group_lines (args : list string) (fs : string -> directory)
    (env : option string) (table : list FileStat) :
  length args <> 2%nat -> gen_stats (fs (base_arg args)) = Ok table -> table <> [] ->
  exists names : list string,
    fst (main args fs env) =
      [StatTable stat_headers (sorted_by_key_desc line_count table)]
        ++ map (fun k => Line (ljust 30 k +:+ " : "
                                +:+ rjust 6 (str_int (total_lines (rows_under k table)))))
               names
        ++ [Line (newline +:+ "total line count: " +:+ str_int (total_lines table))]
    /\ StronglySorted String.le names
    /\ NoDup names
    /\ forall k, k ∈ names <-> exists r, r ∈ table /\ group_key (path r) = k.
Proof.
  intros Hlen Hg Hne.
  set (table_sorted := sorted_by_key_desc line_count table).
  assert (table_sorted ≡ₚ table) as Hperm by apply py_sorted_Permutation.
  destruct (dir_group_subtotal table_sorted) as [Hgroups Hrows].
  destruct (dir_groups_spec table_sorted) as (_ & _ & _ & Hnd). cbv zeta in Hnd.
  exists (map fst (dir_groups table_sorted)).
  rewrite (main_single_mode _ _ _ _ Hlen Hg), report_stats_nonempty by done.
  cbn [fst]. fold table_sorted. split; [|split; [apply dir_groups_sorted|split; [done|]]].
  - f_equal. f_equal. rewrite map_map. apply map_ext_in.
    intros g Hin%list_elem_of_In. unfold group_line.
    destruct (Hgroups g Hin) as (_ & -> & _).
    unfold total_lines, rows_under. do 5 f_equal.
    apply sum_Z_Permutation, fmap_Permutation. by rewrite Hperm.
  - intros k. split.
    + intros (g & -> & Hin)%list_elem_of_fmap_1.
      destruct (Hgroups g Hin) as (_ & _ & Hnon).
      destruct (rows_under (fst g) table_sorted) as [|r rs] eqn:Hr; [done|].
      assert (r ∈ rows_under (fst g) table_sorted) as Hrin by (rewrite Hr; left).
      apply list_elem_of_filter in Hrin as [Hkey Hrin].
      exists r. split; [by rewrite <- Hperm|done].
    + intros (r & Hr & <-). apply Hrows. by rewrite Hperm.
Qed.

Lemma main_group_lines_witness :
  exists names : list string,
    fst (main ["tree"] snapshots None) =
      [StatTable stat_headers (sorted_by_key_desc line_count stats_tree)]
        ++ map (fun k => Line (ljust 30 k +:+ " : "
                                +:+ rjust 6 (str_int (total_lines (rows_under k stats_tree)))))
               names
        ++ [Line (newline +:+ "total line count: " +:+ str_int (total_lines stats_tree))]
    /\ ("x/y" ∈ names <-> exists r, r ∈ stats_tree /\ group_key (path r) = "x/y").
Proof.
  assert (length ["tree"] <> 2%nat) as Hlen by (simpl; lia).
  destruct (main_group_lines ["tree"] snapshots None stats_tree Hlen gen_stats_tree
              ltac:(discriminate)) as (names & Hout & _ & _ & Hnames).
  exists names. split; [exact Hout|apply Hnames].
Defined.

(** ** Path segments and directory names *)

Lemma string_app_cons (c : ascii) (s t : string) : String c s +:+ t = String c (s +:+ t).
Proof. reflexivity. Qed.

Lemma string_app_nil_l (t : string) : EmptyString +:+ t = t.
Proof. reflexivity. Qed.

Lemma string_app_nil_r (s : string) : s +:+ EmptyString = s.
Proof. induction s as [|c s IH]; [done|]. by rewrite string_app_cons, IH. Qed.

Lemma string_app_assoc (s t u : string) : (s +:+ t) +:+ u = s +:+ (t +:+ u).
Proof. induction s as [|c s IH]; [done|]. by rewrite !string_app_cons, IH. Qed.

Lemma split_nonempty (sep : ascii) (s : string) : split sep s <> [].
Proof.
  destruct s as [|c s]; simpl; [done|].
  destruct (Ascii.eqb c sep); [done|]. by destruct (split sep s).
Qed.

Lemma join_cons (sep w : string) (l : list string) :
  l <> [] -> join sep (w :: l) = w +:+ sep +:+ join sep l.
Proof. by destruct l. Qed.

Lemma join_split (sep : ascii) (s : string) :
  join (String sep EmptyString) (split sep s) = s.
Proof.
  induction s as [|c s IH]; [done|]. simpl.
  destruct (Ascii.eqb_spec c sep) as [->|Hne].
  - rewrite join_cons by apply split_nonempty. by rewrite IH.
  - pose proof (split_nonempty sep s) as Hnon.
    destruct (split sep s) as [|w ws]; [done|].
    destruct ws as [|w' ws]; simpl in *; [by rewrite IH|].
    by rewrite string_app_cons, IH.
Qed.

Lemma split_no_sep (sep : ascii) (s : string) :
  Forall (fun w => has_char sep w = false) (split sep s).
Proof.
  induction s as [|c s IH]; simpl; [by repeat constructor|].
  destruct (Ascii.eqb c sep) eqn:Hc; [by constructor|].
  pose proof (split_nonempty sep s) as Hnon.
  destruct (split sep s) as [|w ws]; [done|].
  apply Forall_cons in IH as [Hw Hws]. constructor; [|done].
  simpl. by rewrite Hc.
Qed.

Lemma split_app_sep (sep : ascii) (w s : string) :
  has_char sep w = false ->
  split sep (w +:+ String sep s) = w :: split sep s.
Proof.
  induction w as [|c w IH]; simpl.
  - intros _. rewrite ?string_app_nil_l. simpl. by rewrite Ascii.eqb_refl.
  - intros [Hc Hw]%orb_false_iff. rewrite ?string_app_cons. simpl.
    by rewrite Hc, (IH Hw).
Qed.

Lemma split_no_char (sep : ascii) (w : string) :
  has_char sep w = false -> split sep w = [w].
Proof.
  induction w as [|c w IH]; simpl; [done|].
  intros [Hc Hw]%orb_false_iff. by rewrite Hc, (IH Hw).
Qed.

Lemma split_join (sep : ascii) (l : list string) :
  l <> [] -> Forall (fun w => has_char sep w = false) l ->
  split sep (join (String sep EmptyString) l) = l.
Proof.
  induction l as [|w l IH]; [done|]. intros _ [Hw Hl]%Forall_cons.
  destruct l as [|w' l]; [by apply split_no_char|].
  rewrite join_cons by done. rewrite string_app_cons, string_app_nil_l.
  rewrite split_app_sep by done. by rewrite IH.
Qed.

(** X17.  Splitting a string at a separator and joining the pieces with it
    gives the string back; the pieces are never none and hold no
    separator; and joining separator-free pieces, then splitting, gives
    the pieces back. *)
Theorem split_join_round_trip (sep : ascii) :
  (forall s, join (String sep EmptyString) (split sep s) = s
             /\ split sep s <> []
             /\ Forall (fun w => has_char sep w = false) (split sep s))
  /\ (forall l, l <> [] -> Forall (fun w => has_char sep w = false) l ->
                split sep (join (String sep EmptyString) l) = l).
Proof.
  split.
  - intros s. split; [apply join_split|]. split; [apply split_nonempty|apply split_no_sep].
  - apply split_join.
Qed.

Lemma group_key_join (segs : list string) :
  segs <> [] -> Forall (fun w => has_char "/"%char w = false) segs ->
  group_key (join "/" segs) = join "/" (take 2 segs).
Proof.
  intros Hne Hsegs. unfold group_key, slice_to.
  by rewrite (split_join "/"%char) by done.
Qed.

(** X18.  The directory name of a path made of slash-free segments is its
    first two segments joined by a slash, or the whole path when it has at
    most two: a file at the top of the tree or directly inside a top-level
    directory is a group by itself. *)
Theorem group_key_of_segments (segs : list string) :
  segs <> [] -> Forall (fun w => has_char "/"%char w = false) segs ->
  group_key (join "/" segs) = join "/" (take 2 segs)
  /\ ((length segs <= 2)%nat -> group_key (join "/" segs) = join "/" segs).
Proof.
  intros Hne Hsegs. rewrite group_key_join by done. split; [done|].
  intros Hlen. by rewrite take_ge by lia.
Qed.

Lemma group_key_of_segments_witness :
  group_key "x/y/z/w.py" = "x/y" /\ group_key "x/z.py" = "x/z.py"
  /\ group_key "a.py" = "a.py".
Proof.
  split; [|split].
  - apply (group_key_of_segments ["x"; "y"; "z"; "w.py"]); [done|by repeat constructor].
  - apply (group_key_of_segments ["x"; "z.py"]); [done|by repeat constructor|simpl; lia].
  - apply (group_key_of_segments ["a.py"]); [done|by repeat constructor|simpl; lia].
Defined.

(** X19.  The directory name of a path is a prefix of the path, followed
    there by nothing or by a slash; it has at most one slash in the sense
    that it is its own directory name. *)
Theorem group_key_prefix (p : string) :
  (exists rest, p = group_key p +:+ rest
                /\ (rest = EmptyString \/ exists r, rest = String "/"%char r))
  /\ group_key (group_key p) = group_key p.
Proof.
  pose proof (join_split "/"%char p) as Hp.
  pose proof (split_no_sep "/"%char p) as Hno.
  pose proof (split_nonempty "/"%char p) as Hne.
  assert (group_key p = join "/" (take 2 (split "/"%char p))) as -> by reflexivity.
  destruct (split "/"%char p) as [|w1 [|w2 [|w3 ws]]] eqn:Hs; [done|..]; split.
  - exists EmptyString. simpl in *. rewrite string_app_nil_r. auto.
  - by apply (group_key_join [w1]).
  - exists EmptyString. simpl in *. rewrite string_app_nil_r. auto.
  - by apply (group_key_join [w1; w2]).
  - exists ("/" +:+ join "/" (w3 :: ws)). split; [|right; by eexists].
    rewrite <- Hp. simpl take. rewrite !join_cons by done.
    change (join "/" [w1; w2]) with (w1 +:+ "/" +:+ w2).
    by rewrite !string_app_assoc.
  - simpl take.
    assert (Forall (fun w => has_char "/"%char w = false) [w1; w2]) as H2.
    { apply Forall_cons in Hno as [? [? _]%Forall_cons]. by repeat constructor. }
    by apply (group_key_join [w1; w2]).
Qed.

(** ** Docstrings and indentation; signed display *)

Lemma lstrip_all_space (ws s : string) :
  all_space ws = true -> lstrip (ws +:+ s) = lstrip s.
Proof.
  induction ws as [|c ws IH]; [done|]. simpl.
  intros [Hc Hws]%andb_true_iff. rewrite ?string_app_cons. simpl.
  by rewrite Hc, IH.
Qed.

(** X20.  Whether a token is a docstring does not depend on how far its
    line is indented: putting whitespace in front of the source line
    leaves [is_docstring] unchanged. *)
Theorem is_docstring_indentation (tok : TokenInfo) (ws : string) :
  all_space ws = true ->
  is_docstring (with_line tok (ws +:+ tok_line tok)) = is_docstring tok.
Proof.
  intros Hws. unfold is_docstring, with_line, strip. cbn [tok_type tok_string tok_line].
  by rewrite lstrip_all_space.
Qed.

Lemma is_docstring_indentation_witness :
  is_docstring (with_line dquote_doc_token
                  ("        " +:+ tok_line dquote_doc_token)) = true.
Proof.
  rewrite (is_docstring_indentation dquote_doc_token "        "); by vm_compute.
Defined.

Lemma str_int_nonpos_no_plus (n : Z) :
  n <= 0 -> forall s, str_int n <> String "+"%char s.
Proof.
  intros Hn s. destruct n as [|p|p]; [by vm_compute|lia|].
  unfold str_int, pretty, pretty_Z. by rewrite string_app_cons.
Qed.

(** X21.  [display_diff] puts a plus sign in front of a positive number and
    of no other; and two different numbers never display alike. *)
Theorem display_diff_sign (a : Z) :
  (startswith (display_diff a) "+" = true <-> 0 < a)
  /\ (forall b, display_diff a = display_diff b -> a = b).
Proof.
  unfold display_diff. split.
  - destruct (0 <? a) eqn:Ha.
    + apply Z.ltb_lt in Ha. rewrite string_app_cons, startswith_cons.
      split; [done|]. intros _. rewrite Ascii.eqb_refl. unfold startswith.
      by destruct (_ +:+ _).
    + apply Z.ltb_ge in Ha. split; [|lia].
      destruct (str_int a) as [|c s] eqn:Hs; [done|].
      rewrite startswith_cons. destruct (Ascii.eqb_spec "+"%char c) as [<-|]; [|done].
      by destruct (str_int_nonpos_no_plus a Ha s).
  - intros b. destruct (0 <? a) eqn:Ha, (0 <? b) eqn:Hb;
      rewrite ?string_app_cons, ?string_app_nil_l.
    + intros [= H]. by apply (inj pretty) in H.
    + intros H. apply Z.ltb_ge in Hb. by destruct (str_int_nonpos_no_plus b Hb _ (eq_sym H)).
    + intros H. apply Z.ltb_ge in Ha. by destruct (str_int_nonpos_no_plus a Ha _ H).
    + intros H. by apply (inj pretty) in H.
Qed.

(** ** Scans: ignored tokens, concatenation, order *)

Lemma retained_cons_ignored (tok : TokenInfo) (l : list TokenInfo) :
  ignored tok = true -> retained (tok :: l) = retained l.
Proof.
  unfold ignored, retained. simpl. intros H.
  destruct (in_TOKEN_WHITELIST (tok_type tok)); simpl in *; [|done].
  by rewrite H.
Qed.

Lemma gen_stats_from_acc (files : directory) (acc : list FileStat) :
  gen_stats_from acc files =
    match gen_stats_from [] files with
    | Ok rows => Ok (acc ++ rows)
    | Raise e => Raise e
    end.
Proof.
  revert acc. induction files as [|f files IH]; intros acc; simpl.
  - by rewrite app_nil_r.
  - unfold gen_stats_file. destruct (tokenized f) as [toks|e]; simpl; [|done].
    destruct (0 <? _); [|apply IH].
    destruct (int_truediv _ _) as [d|e]; simpl; [|done].
    rewrite (IH (acc ++ _)), (IH [_]).
    destruct (gen_stats_from [] files); [|done]. by rewrite <- app_assoc.
Qed.

(** X22.  Scanning one tree after another gives the rows of the first
    followed by the rows of the second: a file's row does not depend on
    the files around it. *)
Theorem gen_stats_app (d1 d2 : directory) (s1 s2 : list FileStat) :
  gen_stats d1 = Ok s1 -> gen_stats d2 = Ok s2 ->
  gen_stats (d1 ++ d2) = Ok (s1 ++ s2).
Proof.
  unfold gen_stats. intros H1 H2.
  rewrite gen_stats_from_app, H1. simpl. by rewrite gen_stats_from_acc, H2.
Qed.

Lemma gen_stats_app_witness : gen_stats (v1 ++ v_tree) = Ok (stats_v1 ++ stats_tree).
Proof. exact (gen_stats_app v1 v_tree stats_v1 stats_tree gen_stats_v1 gen_stats_tree). Defined.

(** X23.  A token of a type outside the whitelist (a comment, a newline, an
    indent, ...) or a docstring token changes nothing: the scan of a tree
    is the same with and without such a token in one of its files. *)
Theorem gen_stats_ignored_token (pre post : directory) (p : string)
    (toks1 toks2 : list TokenInfo) (tok : TokenInfo) :
  ignored tok = true ->
  gen_stats (pre ++ py_file p (toks1 ++ tok :: toks2) :: post)
  = gen_stats (pre ++ py_file p (toks1 ++ toks2) :: post).
Proof.
  intros Hig. unfold gen_stats. rewrite !gen_stats_from_app.
  destruct (gen_stats_from [] pre) as [acc|e]; simpl; [|done].
  unfold gen_stats_file. simpl.
  by rewrite !retained_app, (retained_cons_ignored _ _ Hig).
Qed.

Lemma gen_stats_ignored_token_witness :
  gen_stats [py_file "a.py" (comment_token :: dquote_doc_token :: name_lines 5 2)]
  = gen_stats [py_file "a.py" (name_lines 5 2)].
Proof.
  etrans.
  - apply (gen_stats_ignored_token [] [] "a.py" [] (dquote_doc_token :: name_lines 5 2)
             comment_token). reflexivity.
  - apply (gen_stats_ignored_token [] [] "a.py" [] (name_lines 5 2) dquote_doc_token).
    by vm_compute.
Defined.

Lemma stats_map_Permutation (l l' : list FileStat) :
  NoDup (paths l) -> l ≡ₚ l' -> stats_map l = stats_map l'.
Proof.
  intros Hnd Hperm.
  assert (NoDup (paths l')) as Hnd' by (unfold paths; by rewrite <- Hperm).
  apply map_eq. intros p. apply option_eq. intros r. split.
  - intros [Hr <-]%stats_map_lookup_Some.
    apply stats_map_lookup_NoDup; [done|by rewrite <- Hperm].
  - intros [Hr <-]%stats_map_lookup_Some.
    apply stats_map_lookup_NoDup; [done|by rewrite Hperm].
Qed.

(** X24.  With unique paths, the diff does not depend on the order of the
    rows in the two collections, that is on the order in which the scans
    met the files. *)
Theorem gen_diff_Permutation (old old' new new' : list FileStat) :
  NoDup (paths old) -> NoDup (paths new) -> old ≡ₚ old' -> new ≡ₚ new' ->
  gen_diff old' new' = gen_diff old new.
Proof.
  intros Ho Hn Hpo Hpn. unfold gen_diff. cbv zeta.
  by rewrite <- (stats_map_Permutation _ _ Ho Hpo), <- (stats_map_Permutation _ _ Hn Hpn).
Qed.

Lemma gen_diff_Permutation_witness :
  gen_diff (reverse stats_v1) (reverse stats_v3) = gen_diff stats_v1 stats_v3.
Proof.
  apply (gen_diff_Permutation stats_v1 (reverse stats_v1) stats_v3 (reverse stats_v3)).
  - decide_by_compute.
  - decide_by_compute.
  - by rewrite reverse_Permutation.
  - by rewrite reverse_Permutation.
Defined.
